(** * Attribution analysis service of clickstream-analytics-on-aws

    A shallow embedding of
    [src/control-plane/backend/lambda/api/service/attribution.ts]
    (class [AttributionAnalysisService]) and of the credit-assignment rules
    of the attribution SQL builders, with the properties the specification
    states about them. *)

From Stdlib Require Import ZArith QArith Ascii String List Lia.
From stdpp Require Import base option strings gmap list.

Local Open Scope string_scope.
Local Open Scope Z_scope.
Local Open Scope list_scope.

(** ** JavaScript values

    The request body is typed [any]: a property may be missing
    ([undefined]), [null], a boolean, a number, a string, or a structured
    value.  The service only ever tests a property for truthiness ([!x]),
    for being nullish ([x ?? d]), and for equality with a string constant
    ([x == E], [x === E]); a structured value (array or object) takes part
    in these tests through its primitive string coercion alone, so it is
    represented by that string.  A number takes part in them only through
    being zero or not (a JSON body carries no NaN), so integers stand for
    numbers. *)
Module Js.

Inductive JsVal : Type :=
| JUndefined
| JNull
| JBool (b : bool)
| JNum (n : Z)
| JStr (s : string)
| JObj (toPrimitive : string).

#[global] Instance JsVal_eq_dec : EqDecision JsVal.
Proof. solve_decision. Defined.

(** ToBoolean: [undefined], [null], [false], [0] and [''] are falsy,
    every object is truthy. *)
Definition truthy (v : JsVal) : bool :=
  match v with
  | JUndefined | JNull => false
  | JBool b => b
  | JNum n => negb (Z.eqb n 0)
  | JStr s => negb (String.eqb s "")
  | JObj _ => true
  end.

(** [v ?? d]. *)
Definition coalesce (v d : JsVal) : JsVal :=
  match v with
  | JUndefined | JNull => d
  | _ => v
  end.

(** [v === s] for a string [s]. *)
Definition strict_eq_str (v : JsVal) (s : string) : bool :=
  match v with
  | JStr t => String.eqb t s
  | _ => false
  end.

(** [v == name] for a string [name] that is not a numeric literal, as
    the members of a string enum are: a number or boolean operand is
    compared with ToNumber(name), which is NaN, and is never equal; an
    object operand is compared through its primitive string. *)
Definition loose_eq_name (v : JsVal) (name : string) : bool :=
  match v with
  | JStr t => String.eqb t name
  | JObj p => String.eqb p name
  | JUndefined | JNull | JBool _ | JNum _ => false
  end.

(** [o.k]: reading a missing property yields [undefined]. *)
Definition get (o : gmap string JsVal) (k : string) : JsVal :=
  default JUndefined (o !! k).

End Js.
Export Js.

Abbreviation Query := (gmap string JsVal).

(** ** Enumerations of [@aws/clickstream-base-lib] *)

(** Modelled from the spec: the members of [AttributionModelType]
    (the package [@aws/clickstream-base-lib] is not among the sources);
    the specification names the four supported model types FIRST_TOUCH,
    LAST_TOUCH, LINEAR and POSITION. *)
Module AttributionModelType.
Definition LAST_TOUCH : string := "LAST_TOUCH".
Definition FIRST_TOUCH : string := "FIRST_TOUCH".
Definition LINEAR : string := "LINEAR".
Definition POSITION : string := "POSITION".
End AttributionModelType.

(** Modelled from the spec: the member [PREVIEW] of [ExploreRequestAction]
    (same package); the specification writes the action as "PREVIEW". *)
Module ExploreRequestAction.
Definition PREVIEW : string := "PREVIEW".
End ExploreRequestAction.

(** ** Responses and the handler's effects *)

Inductive ApiBody (R : Type) : Type :=
| ApiFail (message : string)
| ApiSuccess (data : R).
Arguments ApiFail {R} message.
Arguments ApiSuccess {R} data.

(** [res.status(code).json(body)] and [res.status(code).send(body)]. *)
Record Response (R : Type) : Type := mkResponse {
  status : Z;
  body : ApiBody R
}.
Arguments mkResponse {R} status body.
Arguments status {R} r.
Arguments body {R} r.

(** What the handler does with its [res] and [next] arguments. *)
Inductive Outcome (R E : Type) : Type :=
| Responded (r : Response R)
| Next (error : E).
Arguments Responded {R E} r.
Arguments Next {R E} error.

(** The result of awaiting a collaborator's promise. *)
Inductive Settled (E A : Type) : Type :=
| Fulfilled (a : A)
| Rejected (error : E).
Arguments Fulfilled {E A} a.
Arguments Rejected {E A} error.

(** How a block of the handler completes: normally with a value, by an
    early [return res.status(..)...], or by a thrown exception. *)
Inductive Completion (R E A : Type) : Type :=
| Normal (a : A)
| Returned (r : Response R)
| Thrown (error : E).
Arguments Normal {R E A} a.
Arguments Returned {R E A} r.
Arguments Thrown {R E A} error.

(** A computation reads and advances the identifier generator (the number
    of identifiers drawn so far) and reports the collaborator calls it
    made, in order. *)
Definition M (Ev R E A : Type) : Type :=
  nat -> Completion R E A * list Ev * nat.

Definition ret {Ev R E A} (a : A) : M Ev R E A :=
  fun n => (Normal a, [], n).

Definition bind {Ev R E A B} (m : M Ev R E A) (k : A -> M Ev R E B) : M Ev R E B :=
  fun n =>
    match m n with
    | (Normal a, t1, n1) =>
        match k a n1 with
        | (c, t2, n2) => (c, t1 ++ t2, n2)
        end
    | (Returned r, t1, n1) => (Returned r, t1, n1)
    | (Thrown e, t1, n1) => (Thrown e, t1, n1)
    end.

(** A call of a synchronous collaborator, recorded as [ev]. *)
Definition call {Ev R E A} (ev : Ev) (a : A) : M Ev R E A :=
  fun n => (Normal a, [ev], n).

(** [await] of an asynchronous collaborator, recorded as [ev]. *)
Definition await {Ev R E A} (ev : Ev) (p : Settled E A) : M Ev R E A :=
  fun n =>
    match p with
    | Fulfilled a => (Normal a, [ev], n)
    | Rejected e => (Thrown e, [ev], n)
    end.

(** [return res.status(code).json(b)]. *)
Definition respond {Ev R E A} (code : Z) (b : ApiBody R) : M Ev R E A :=
  fun n => (Returned (mkResponse code b), [], n).

Notation "'let!' x ':=' m 'in' k" := (bind m (fun x => k))
  (at level 10, x name, m at level 100, k at level 200).

(** ** The service *)

(** [CheckParamsStatus], the validator's result. *)
Record CheckParamsStatus : Type := mkCheck {
  success : bool;
  message : string
}.

(** The argument object of [getVisualRelatedDefs]. *)
Record VisualRelatedDefParams : Type := mkVisualRelatedDefParams {
  vr_timeScopeType : JsVal;
  vr_sheetId : JsVal;
  vr_visualId : string;
  vr_viewName : string;
  vr_lastN : JsVal;
  vr_timeUnit : JsVal;
  vr_timeStart : JsVal;
  vr_timeEnd : JsVal
}.

(** [DataSetProps], as [createModelVisual] fills it. *)
Record DataSetProps (Columns : Type) : Type := mkDataSetProps {
  tableName : string;
  columns : Columns;
  importMode : string;
  customSql : string;
  projectedColumns : list string
}.
Arguments mkDataSetProps {Columns}.
Arguments tableName {Columns} d.
Arguments columns {Columns} d.
Arguments importMode {Columns} d.
Arguments customSql {Columns} d.
Arguments projectedColumns {Columns} d.

(** The result object of [getVisualRelatedDefs]. *)
Record VisualRelatedDefs (FC PD FG : Type) : Type := mkVisualRelatedDefs {
  filterControl : FC;
  parameterDeclarations : PD;
  filterGroup : FG
}.
Arguments mkVisualRelatedDefs {FC PD FG}.
Arguments filterControl {FC PD FG} v.
Arguments parameterDeclarations {FC PD FG} v.
Arguments filterGroup {FC PD FG} v.

(** The visual properties object of [createModelVisual]. *)
Record VisualProps (VisualDef FC PD FG : Type) : Type := mkVisualProps {
  vp_sheetId : JsVal;
  vp_name : string;
  vp_visualId : string;
  vp_visual : VisualDef;
  vp_dataSetIdentifierDeclaration : list unit;
  vp_filterControl : FC;
  vp_parameterDeclarations : PD;
  vp_filterGroup : FG
}.
Arguments mkVisualProps {VisualDef FC PD FG}.
Arguments vp_sheetId {VisualDef FC PD FG} v.
Arguments vp_name {VisualDef FC PD FG} v.
Arguments vp_visualId {VisualDef FC PD FG} v.
Arguments vp_visual {VisualDef FC PD FG} v.

(** Everything the service imports from modules that are not among the
    sources: type declarations, constants, and the collaborators it calls.
    The synchronous helpers are functions of their arguments;
    [encodeAttributionQueryValueForSql] updates the query object in place
    and is given by the object's contents after the call; an awaited
    collaborator settles to a value or rejects.  [uuid_of n] is the
    identifier that the n-th draw of [uuidv4()] yields. *)
Class Collaborators : Type := {
  IPipeline : Type;
  CreateDashboardResult : Type;
  Error : Type;
  Columns : Type;
  TitleProps : Type;
  VisualDef : Type;
  FilterControl : Type;
  ParameterDeclarations : Type;
  FilterGroup : Type;
  dashboardEmbedUrl : CreateDashboardResult -> string;
  EN_US : string;
  TABLE : string;
  CHART : string;
  ATTRIBUTION : string;
  attributionVisualColumns : Columns;
  uuid_of : nat -> string;
  checkAttributionAnalysisParameter : Query -> CheckParamsStatus;
  getPipelineByProjectId : JsVal -> Settled Error (option IPipeline);
  getTimezoneByAppId : IPipeline -> JsVal -> string;
  encodeAttributionQueryValueForSql : Query -> Query;
  buildSQLForSinglePointModel : Query -> string;
  buildSQLForLinearModel : Query -> string;
  buildSQLForPositionModel : Query -> string;
  getTempResourceName : JsVal -> JsVal -> string;
  getDashboardTitleProps : string -> Query -> Settled Error TitleProps;
  getAttributionTableVisualDef :
    string -> string -> TitleProps -> JsVal -> VisualDef;
  getVisualRelatedDefs :
    VisualRelatedDefParams -> JsVal ->
    Settled Error (VisualRelatedDefs FilterControl ParameterDeclarations FilterGroup);
  createDashboardVisuals :
    JsVal -> string -> Query -> IPipeline ->
    list (DataSetProps Columns) ->
    list (VisualProps VisualDef FilterControl ParameterDeclarations FilterGroup) ->
    Settled Error (option CreateDashboardResult)
}.

Section AttributionAnalysisService.

Context `{Collaborators}.

(** The collaborator calls a run of the service makes. *)
Inductive Event : Type :=
| Call_checkAttributionAnalysisParameter (query : Query)
| Call_getPipelineByProjectId (projectId : JsVal)
| Call_getTimezoneByAppId (pipeline : IPipeline) (appId : JsVal)
| Call_encodeAttributionQueryValueForSql (query : Query)
| Call_uuidv4 (n : nat)
| Call_buildSQLForSinglePointModel (params : Query)
| Call_buildSQLForLinearModel (params : Query)
| Call_buildSQLForPositionModel (params : Query)
| Call_getTempResourceName (viewName action : JsVal)
| Call_getDashboardTitleProps (analysisType : string) (query : Query)
| Call_getAttributionTableVisualDef
    (visualId viewName : string) (titleProps : TitleProps) (chartType : JsVal)
| Call_getVisualRelatedDefs (props : VisualRelatedDefParams) (locale : JsVal)
| Call_createDashboardVisuals
    (sheetId : JsVal) (viewName : string) (query : Query) (pipeline : IPipeline)
    (datasets : list (DataSetProps Columns))
    (visuals : list (VisualProps VisualDef FilterControl ParameterDeclarations FilterGroup)).

Definition Comp : Type -> Type := M Event CreateDashboardResult Error.

(** [uuidv4()]. *)
Definition uuidv4 : Comp string :=
  fun n => (Normal (uuid_of n), [Call_uuidv4 n], S n).

(** [{ ...query, schemaName: query.appId, dbName: query.projectId }]. *)
Definition sqlParameters (query : Query) : Query :=
  <["dbName" := get query "projectId"]>
    (<["schemaName" := get query "appId"]> query).

Definition createModelVisual
    (visualSql : string) (sheetId : JsVal) (query : Query) (pipeline : IPipeline)
    : Comp (option CreateDashboardResult) :=
  let! viewName :=
    call (Call_getTempResourceName (get query "viewName") (get query "action"))
         (getTempResourceName (get query "viewName") (get query "action")) in
  let datasetPropsArray :=
    [ mkDataSetProps viewName attributionVisualColumns "DIRECT_QUERY" visualSql
        [ "Trigger Count";
          "Touch Point Name";
          "Number of Total Conversion";
          "Number of Triggers with Conversion";
          "Contribution(number/sum...value)";
          "Contribution Rate" ] ] in
  let locale := coalesce (get query "locale") (JStr EN_US) in
  let! visualId := uuidv4 in
  let! titleProps :=
    await (Call_getDashboardTitleProps ATTRIBUTION query)
          (getDashboardTitleProps ATTRIBUTION query) in
  let quickSightChartType := coalesce (get query "chartType") (JStr TABLE) in
  let! visualDef :=
    call (Call_getAttributionTableVisualDef visualId viewName titleProps quickSightChartType)
         (getAttributionTableVisualDef visualId viewName titleProps quickSightChartType) in
  let props :=
    mkVisualRelatedDefParams
      (get query "timeScopeType") sheetId visualId viewName
      (get query "lastN") (get query "timeUnit")
      (get query "timeStart") (get query "timeEnd") in
  let! visualRelatedParams :=
    await (Call_getVisualRelatedDefs props locale)
          (getVisualRelatedDefs props locale) in
  let visualProps :=
    mkVisualProps sheetId CHART visualId visualDef []
      (filterControl visualRelatedParams)
      (parameterDeclarations visualRelatedParams)
      (filterGroup visualRelatedParams) in
  await (Call_createDashboardVisuals sheetId viewName query pipeline
           datasetPropsArray [visualProps])
        (createDashboardVisuals sheetId viewName query pipeline
           datasetPropsArray [visualProps]).

Definition createSinglePointModelVisual
    (sheetId : JsVal) (query : Query) (pipeline : IPipeline)
    : Comp (option CreateDashboardResult) :=
  let! sql :=
    call (Call_buildSQLForSinglePointModel (sqlParameters query))
         (buildSQLForSinglePointModel (sqlParameters query)) in
  createModelVisual sql sheetId query pipeline.

Definition createLinearModelVisual
    (sheetId : JsVal) (query : Query) (pipeline : IPipeline)
    : Comp (option CreateDashboardResult) :=
  let! sql :=
    call (Call_buildSQLForLinearModel (sqlParameters query))
         (buildSQLForLinearModel (sqlParameters query)) in
  createModelVisual sql sheetId query pipeline.

Definition createPositionBasedModelVisual
    (sheetId : JsVal) (query : Query) (pipeline : IPipeline)
    : Comp (option CreateDashboardResult) :=
  let! sql :=
    call (Call_buildSQLForPositionModel (sqlParameters query))
         (buildSQLForPositionModel (sqlParameters query)) in
  createModelVisual sql sheetId query pipeline.

(** The query object once [query.timezone] is assigned and the encoder
    has run on it (lines 45 to 47). *)
Definition encodedQuery (query : Query) (pipeline : IPipeline) : Query :=
  encodeAttributionQueryValueForSql
    (<["timezone" := JStr (getTimezoneByAppId pipeline (get query "appId"))]> query).

(** Lines 49 to 57: the sheet the visual goes to. *)
Definition resolveSheetId (query : Query) : Comp JsVal :=
  if negb (truthy (get query "dashboardId")) then
    let! id := uuidv4 in ret (JStr id)
  else if negb (truthy (get query "sheetId")) then
    respond 400 (ApiFail "missing required parameter sheetId")
  else
    ret (get query "sheetId").

(** Lines 59 to 68: the dispatch on [query.modelType]. *)
Definition dispatchModel (sheetId : JsVal) (query : Query) (pipeline : IPipeline)
    : Comp (option CreateDashboardResult) :=
  if loose_eq_name (get query "modelType") AttributionModelType.LAST_TOUCH
     || loose_eq_name (get query "modelType") AttributionModelType.FIRST_TOUCH then
    createSinglePointModelVisual sheetId query pipeline
  else if loose_eq_name (get query "modelType") AttributionModelType.LINEAR then
    createLinearModelVisual sheetId query pipeline
  else if loose_eq_name (get query "modelType") AttributionModelType.POSITION then
    createPositionBasedModelVisual sheetId query pipeline
  else
    respond 400 (ApiFail "Invalid attribution analysis model type").

(** Lines 70 to 73: the response for the result of the visualization. *)
Definition conclude (query : Query) (result : option CreateDashboardResult)
    : Comp (Response CreateDashboardResult) :=
  match result with
  | None =>
      respond 500 (ApiFail "Failed to create resources, please try again later.")
  | Some r =>
      if String.eqb (dashboardEmbedUrl r) ""
         && strict_eq_str (get query "action") ExploreRequestAction.PREVIEW then
        respond 500 (ApiFail "Failed to create resources, please try again later.")
      else
        respond 201 (ApiSuccess r)
  end.

(** The body of the [try] block of [createAttributionAnalysisVisual];
    [query] is [req.body]. *)
Definition createAttributionAnalysisVisual_try (query : Query)
    : Comp (Response CreateDashboardResult) :=
  let! checkResult :=
    call (Call_checkAttributionAnalysisParameter query)
         (checkAttributionAnalysisParameter query) in
  if negb (success checkResult) then
    respond 400 (ApiFail (message checkResult))
  else
  let! pipeline :=
    await (Call_getPipelineByProjectId (get query "projectId"))
          (getPipelineByProjectId (get query "projectId")) in
  match pipeline with
  | None => respond 404 (ApiFail "Pipeline not found")
  | Some pipeline =>
  let! timezone :=
    call (Call_getTimezoneByAppId pipeline (get query "appId"))
         (getTimezoneByAppId pipeline (get query "appId")) in
  let query := <["timezone" := JStr timezone]> query in
  let! query :=
    call (Call_encodeAttributionQueryValueForSql query)
         (encodeAttributionQueryValueForSql query) in
  let! sheetId := resolveSheetId query in
  let! result := dispatchModel sheetId query pipeline in
  conclude query result
  end.

(** [createAttributionAnalysisVisual(req, res, next)]: the [try] block,
    with [catch (error) { next(error) }] around it.  The result is what
    was done with [res] or [next], the collaborator calls made in order,
    and the state of the identifier generator afterwards. *)
Definition createAttributionAnalysisVisual (query : Query) (n : nat)
    : Outcome CreateDashboardResult Error * list Event * nat :=
  match createAttributionAnalysisVisual_try query n with
  | (Normal r, t, n') => (Responded r, t, n')
  | (Returned r, t, n') => (Responded r, t, n')
  | (Thrown e, t, n') => (Next e, t, n')
  end.

(** Observations on a run. *)
Definition outcome_of {A B C} (x : A * B * C) : A := x.1.1.
Definition calls_of {A B C} (x : A * B * C) : B := x.1.2.
Definition generator_of {A B C} (x : A * B * C) : C := x.2.

Definition is_builder_call (e : Event) : bool :=
  match e with
  | Call_buildSQLForSinglePointModel _
  | Call_buildSQLForLinearModel _
  | Call_buildSQLForPositionModel _ => true
  | _ => false
  end.

Definition is_encoder_call (e : Event) : bool :=
  match e with
  | Call_encodeAttributionQueryValueForSql _ => true
  | _ => false
  end.

Definition is_visualization_call (e : Event) : bool :=
  match e with
  | Call_getTempResourceName _ _
  | Call_getDashboardTitleProps _ _
  | Call_getAttributionTableVisualDef _ _ _ _
  | Call_getVisualRelatedDefs _ _
  | Call_createDashboardVisuals _ _ _ _ _ _ => true
  | _ => false
  end.

Definition is_pipeline_lookup (e : Event) : bool :=
  match e with
  | Call_getPipelineByProjectId _ => true
  | _ => false
  end.

(** The [AttributionSQLParameters] a builder was called with. *)
Definition builder_params (e : Event) : option Query :=
  match e with
  | Call_buildSQLForSinglePointModel p
  | Call_buildSQLForLinearModel p
  | Call_buildSQLForPositionModel p => Some p
  | _ => None
  end.

(** Every sheet identifier a call carries is [sheetId]. *)
Definition uses_sheetId (sheetId : JsVal) (e : Event) : Prop :=
  match e with
  | Call_getVisualRelatedDefs props _ => vr_sheetId props = sheetId
  | Call_createDashboardVisuals s _ _ _ _ visuals =>
      s = sheetId /\ Forall (fun v => vp_sheetId v = sheetId) visuals
  | _ => True
  end.

(** The visualization provider was called. *)
Definition is_provider_call (e : Event) : bool :=
  match e with
  | Call_createDashboardVisuals _ _ _ _ _ _ => true
  | _ => false
  end.

(** The states of the identifier generator at the draws of [uuidv4()]. *)
Definition uuid_draws (calls : list Event) : list nat :=
  List.flat_map
    (fun e => match e with
              | Call_uuidv4 n => [n]
              | _ => []
              end)
    calls.

(** The SQL text a builder call returned. *)
Definition builder_sql (e : Event) : option string :=
  match e with
  | Call_buildSQLForSinglePointModel p => Some (buildSQLForSinglePointModel p)
  | Call_buildSQLForLinearModel p => Some (buildSQLForLinearModel p)
  | Call_buildSQLForPositionModel p => Some (buildSQLForPositionModel p)
  | _ => None
  end.


End AttributionAnalysisService.

(** ** Credit assignment of the attribution SQL builders

    The builders compile a request to SQL that the warehouse runs over the
    event store.  What is modelled here is the meaning of that SQL: which
    touch events receive which share of a conversion.  Credits are exact
    rationals; the rounding of the warehouse's floating-point numbers is
    not modelled. *)

Module AttributionModel.

(** Modelled from the spec: a row of the event store
    ([sql-builder-attribution.ts], which generates the SQL over it, is
    not among the sources).  Rows are keyed by [user_pseudo_id],
    [event_timestamp] and [event_name]; [row_id] is the secondary key
    that orders rows with equal timestamps. *)
Record EventRow : Type := mkRow {
  user_pseudo_id : string;
  event_timestamp : Z;
  event_name : string;
  row_id : nat
}.

(** Modelled from the spec: the part of [AttributionSQLParameters] the
    credit assignment depends on (same missing module): the touch-point
    event names, the conversion event name and the time window. *)
Record Scope : Type := mkScope {
  touchPointNames : list string;
  conversionEventName : string;
  windowStart : Z;
  windowEnd : Z
}.

(** Modelled from the spec: the direction flag of the single-point
    builder (same missing module). *)
Inductive Direction : Type := FirstTouch | LastTouch.

(** Modelled from the spec: the filters on the time window and on the
    event names (same missing module). *)
Definition in_window (s : Scope) (e : EventRow) : bool :=
  (windowStart s <=? event_timestamp e) && (event_timestamp e <=? windowEnd s).

(** Modelled from the spec: a touch event of the request (same missing
    module). *)
Definition is_touch (s : Scope) (e : EventRow) : bool :=
  bool_decide (event_name e ∈ touchPointNames s) && in_window s e.

(** Modelled from the spec: a conversion event of the request (same
    missing module). *)
Definition is_conversion (s : Scope) (e : EventRow) : bool :=
  String.eqb (event_name e) (conversionEventName s) && in_window s e.

(** Modelled from the spec: the conversions of the window (same missing
    module). *)
Definition conversions (s : Scope) (rows : list EventRow) : list EventRow :=
  List.filter (is_conversion s) rows.

(** Modelled from the spec: the qualifying touches of a conversion, the
    touch events of the same user within the window strictly before the
    conversion event (same missing module). *)
Definition qualifying (s : Scope) (rows : list EventRow) (c : EventRow)
    : list EventRow :=
  List.filter
    (fun t => is_touch s t
              && String.eqb (user_pseudo_id t) (user_pseudo_id c)
              && (event_timestamp t <? event_timestamp c))
    rows.

(** Modelled from the spec: the order of touch events, by timestamp and
    then by the secondary key (same missing module). *)
Definition precedes (a b : EventRow) : bool :=
  (event_timestamp a <? event_timestamp b)
  || ((event_timestamp a =? event_timestamp b) && (row_id a <=? row_id b)%nat).

(** Modelled from the spec: the ranking of touch events, ascending for
    first-touch and descending for last-touch (same missing module). *)
Definition prefer (d : Direction) (a b : EventRow) : bool :=
  match d with
  | FirstTouch => precedes a b
  | LastTouch => precedes b a
  end.

(** Modelled from the spec: the row that [prefer d] ranks first (same
    missing module). *)
Fixpoint pick (d : Direction) (l : list EventRow) : option EventRow :=
  match l with
  | [] => None
  | x :: l' =>
      match pick d l' with
      | None => Some x
      | Some y => if prefer d x y then Some x else Some y
      end
  end.

(** Modelled from the spec: the single-point model (same missing
    module): the touch selected for a conversion is the earliest
    (first-touch) or the latest (last-touch) of its qualifying touches. *)
Definition selected_touch (d : Direction) (s : Scope) (rows : list EventRow)
    (c : EventRow) : option EventRow :=
  pick d (qualifying s rows c).

(** Modelled from the spec: a unit of credit, with its conversion, the
    credited touch and the credit (same missing module). *)
Record Credit : Type := mkCredit {
  conversion : EventRow;
  touch : EventRow;
  credit : Q
}.

(** Modelled from the spec: the credit rows of the single-point model
    (same missing module): the selected touch of a conversion receives
    100% of its credit. *)
Definition single_point_credits (d : Direction) (s : Scope) (rows : list EventRow)
    : list Credit :=
  List.flat_map
    (fun c => match selected_touch d s rows c with
              | Some t => [mkCredit c t 1]
              | None => []
              end)
    (conversions s rows).

(** The sum of a list of credits. *)
Definition sumQ (l : list Q) : Q := List.fold_right Qplus 0%Q l.

(** Modelled from the spec: the contribution column of the result
    (same missing module): credit rows grouped by touch-point name, the
    credits of a group summed. *)
Definition contribution_of (credits : list Credit) (name : string) : Q :=
  sumQ (List.map credit
          (List.filter (fun k => String.eqb (event_name (touch k)) name) credits)).

(** Modelled from the spec: the groups of the result, one per touch-point
    name (same missing module). *)
Definition touch_point_groups (credits : list Credit) : list string :=
  remove_dups (List.map (fun k => event_name (touch k)) credits).

(** Modelled from the spec: the summed contribution per touch point
    (same missing module). *)
Definition contributions (credits : list Credit) : list (string * Q) :=
  List.map (fun name => (name, contribution_of credits name))
           (touch_point_groups credits).

(** Modelled from the spec: the conversions that have at least one
    qualifying touch (same missing module). *)
Definition attributed_conversions (s : Scope) (rows : list EventRow)
    : list EventRow :=
  List.filter
    (fun c => match qualifying s rows c with [] => false | _ => true end)
    (conversions s rows).

(** Modelled from the spec: the position-based model (same missing
    module): the credit of the touch at position [i] (from 1) among the
    [n] qualifying touches of a user-conversion pair. *)
Definition position_credit (n i : nat) : Q :=
  match n with
  | 1%nat => 1
  | 2%nat => 1 # 2
  | _ =>
      if (i =? 1)%nat then 2 # 5
      else if (i =? n)%nat then 2 # 5
      else (1 # 5) / inject_Z (Z.of_nat (n - 2))
  end.

(** Modelled from the spec: the credits of the qualifying touches of one
    user-conversion pair, given in their order (same missing module). *)
Definition position_credits {A} (touches : list A) : list (A * Q) :=
  imap (fun i t => (t, position_credit (length touches) (S i))) touches.

End AttributionModel.

(** ** A concrete deployment

    Stand-ins for the collaborators, after the end-to-end scenario of the
    specification: project [p1] owns a pipeline whose timezone is
    [+00:00]; every other project has none. *)
Module Scenario.

(** Puts a backslash before every single quote. *)
Fixpoint escape (s : string) : string :=
  match s with
  | EmptyString => EmptyString
  | String c s' =>
      if Ascii.eqb c "'"%char
      then String "\"%char (String c (escape s'))
      else String c (escape s')
  end.

Definition encodeValue (v : JsVal) : JsVal :=
  match v with
  | JStr s => JStr (escape s)
  | _ => v
  end.

(** Requires the identifiers and the two event names. *)
Definition check (q : Query) : CheckParamsStatus :=
  if truthy (get q "projectId") && truthy (get q "appId")
     && truthy (get q "touchPointEventName")
     && truthy (get q "conversionEventName")
  then mkCheck true "OK"
  else mkCheck false "Missing required parameter.".

Fixpoint tally (n : nat) : string :=
  match n with
  | O => ""
  | S n' => String "i"%char (tally n')
  end.

#[global] Instance collaborators : Collaborators := {|
  IPipeline := string;
  CreateDashboardResult := string;
  Error := string;
  Columns := unit;
  TitleProps := string;
  VisualDef := string;
  FilterControl := unit;
  ParameterDeclarations := unit;
  FilterGroup := unit;
  dashboardEmbedUrl := fun r => r;
  EN_US := "en-US";
  TABLE := "table";
  CHART := "CHART";
  ATTRIBUTION := "ATTRIBUTION";
  attributionVisualColumns := tt;
  uuid_of := fun n => "uuid-" +:+ tally n;
  checkAttributionAnalysisParameter := check;
  getPipelineByProjectId := fun projectId =>
    if decide (projectId = JStr "p1") then Fulfilled (Some "+00:00")
    else Fulfilled None;
  getTimezoneByAppId := fun pipeline _ => pipeline;
  encodeAttributionQueryValueForSql := fun q =>
    <["conversionEventName" := encodeValue (get q "conversionEventName")]>
      (<["touchPointEventName" := encodeValue (get q "touchPointEventName")]> q);
  buildSQLForSinglePointModel := fun _ => "select 'single-point'";
  buildSQLForLinearModel := fun _ => "select 'linear'";
  buildSQLForPositionModel := fun _ => "select 'position'";
  getTempResourceName := fun _ action =>
    if strict_eq_str action ExploreRequestAction.PREVIEW then "_tmp_view" else "view";
  getDashboardTitleProps := fun _ _ => Fulfilled "Attribution";
  getAttributionTableVisualDef := fun _ viewName _ _ => viewName;
  getVisualRelatedDefs := fun _ _ => Fulfilled (mkVisualRelatedDefs tt tt tt);
  createDashboardVisuals := fun _ _ query _ _ _ =>
    if decide (get query "viewName" = JStr "not-ready") then Fulfilled (Some "")
    else Fulfilled (Some "https://quicksight/embed")
|}.

(** The request of the end-to-end scenario. *)
Definition request : Query :=
  list_to_map
    [ ("modelType", JStr "LAST_TOUCH");
      ("projectId", JStr "p1");
      ("appId", JStr "a1");
      ("touchPointEventName", JStr "view_item");
      ("conversionEventName", JStr "purchase");
      ("timeScopeType", JStr "FIXED");
      ("timeStart", JStr "2024-01-01");
      ("timeEnd", JStr "2024-01-31");
      ("action", JStr "PREVIEW") ].

Definition pipeline : IPipeline := "+00:00".

(** The same request without its project. *)
Definition request_without_project : Query := delete "projectId" request.

(** The same request for a project that owns no pipeline. *)
Definition request_unknown_project : Query := <["projectId" := JStr "p2"]> request.

(** The same request for a sheet of an existing dashboard. *)
Definition request_existing_sheet : Query :=
  <["sheetId" := JStr "s1"]> (<["dashboardId" := JStr "d1"]> request).

(** The same request for a view the provider has no embed URL for. *)
Definition request_not_ready : Query := <["viewName" := JStr "not-ready"]> request.

(** The same request with a model type that is not supported. *)
Definition request_unknown_model : Query := <["modelType" := JStr "UNKNOWN"]> request.

(** A small event store: user [u1] views an item twice and then
    purchases; user [u2] purchases without a touch. *)
Definition rows : list AttributionModel.EventRow :=
  [ AttributionModel.mkRow "u1" 10 "view_item" 1;
    AttributionModel.mkRow "u1" 20 "view_item" 2;
    AttributionModel.mkRow "u1" 30 "purchase" 3;
    AttributionModel.mkRow "u2" 15 "purchase" 4 ].

Definition scope : AttributionModel.Scope :=
  AttributionModel.mkScope ["view_item"] "purchase" 0 100.

End Scenario.

(** ** A deployment with failing collaborators

    The collaborators of [Scenario], except that the pipeline store rejects
    the lookup of project [down], and that the visualization provider
    resolves to [undefined] for the view [undefined] and rejects for the
    view [down]. *)
Module Outage.

Definition collaborators : Collaborators := {|
  IPipeline := string;
  CreateDashboardResult := string;
  Error := string;
  Columns := unit;
  TitleProps := string;
  VisualDef := string;
  FilterControl := unit;
  ParameterDeclarations := unit;
  FilterGroup := unit;
  dashboardEmbedUrl := fun r => r;
  EN_US := "en-US";
  TABLE := "table";
  CHART := "CHART";
  ATTRIBUTION := "ATTRIBUTION";
  attributionVisualColumns := tt;
  uuid_of := fun n => "uuid-" +:+ Scenario.tally n;
  checkAttributionAnalysisParameter := Scenario.check;
  getPipelineByProjectId := fun projectId =>
    if decide (projectId = JStr "down") then Rejected "pipeline store unavailable"
    else if decide (projectId = JStr "p1") then Fulfilled (Some "+00:00")
    else Fulfilled None;
  getTimezoneByAppId := fun pipeline _ => pipeline;
  encodeAttributionQueryValueForSql := fun q => q;
  buildSQLForSinglePointModel := fun _ => "select 'single-point'";
  buildSQLForLinearModel := fun _ => "select 'linear'";
  buildSQLForPositionModel := fun _ => "select 'position'";
  getTempResourceName := fun _ _ => "view";
  getDashboardTitleProps := fun _ _ => Fulfilled "Attribution";
  getAttributionTableVisualDef := fun _ viewName _ _ => viewName;
  getVisualRelatedDefs := fun _ _ => Fulfilled (mkVisualRelatedDefs tt tt tt);
  createDashboardVisuals := fun _ _ query _ _ _ =>
    if decide (get query "viewName" = JStr "undefined") then Fulfilled None
    else if decide (get query "viewName" = JStr "down")
         then Rejected "provider unavailable"
    else Fulfilled (Some "https://quicksight/embed")
|}.

Definition request_undefined : Query :=
  <["viewName" := JStr "undefined"]> Scenario.request.

Definition request_provider_down : Query :=
  <["viewName" := JStr "down"]> Scenario.request.

Definition request_store_down : Query :=
  <["projectId" := JStr "down"]> Scenario.request.

End Outage.

(** ** The lambda that refreshes a materialized view

    [src/analytics/lambdas/refresh-materialized-views-workflow/refresh-basic-view.ts].
    The Redshift client, the Redshift properties read from the environment
    and [executeStatements] come from modules that are not among the
    sources and are parameters. *)
Module RefreshBasicView.

Record TimezoneWithAppId : Type := mkTimezoneWithAppId {
  appId : string;
  timezone : string
}.

(** [RefreshBasicViewEvent]; [viewName] is [event.detail.viewName]. *)
Record RefreshBasicViewEvent : Type := mkRefreshBasicViewEvent {
  viewName : string;
  timezoneWithAppId : TimezoneWithAppId
}.

(** The object the handler returns; [queryId] and [resultViewName] are its
    [detail.queryId] and [detail.viewName]. *)
Record RefreshResult (QueryId : Type) : Type := mkRefreshResult {
  queryId : QueryId;
  resultViewName : string;
  resultTimezoneWithAppId : TimezoneWithAppId
}.
Arguments mkRefreshResult {QueryId}.
Arguments queryId {QueryId} r.
Arguments resultViewName {QueryId} r.
Arguments resultTimezoneWithAppId {QueryId} r.

(** The statements the handler pushes onto its empty [sqlStatements]. *)
Definition sqlStatements (event : RefreshBasicViewEvent) : list string :=
  [] ++ [ "REFRESH MATERIALIZED VIEW "
          +:+ appId (timezoneWithAppId event) +:+ "." +:+ viewName event +:+ ";" ].

Section Handler.

Context {QueryId Err Client ServerlessProps ProvisionedProps : Type}.

(** [redshiftDataApiClient] and the two parts of [redshiftProps]. *)
Variable redshiftDataApiClient : Client.
Variable serverlessRedshiftProps : ServerlessProps.
Variable provisionedRedshiftProps : ProvisionedProps.
Variable executeStatements :
  Client -> list string -> ServerlessProps -> ProvisionedProps -> Settled Err QueryId.

(** [handler]: the promise it returns settles to the result object, or
    rejects with the error its [catch] block logs and throws again. *)
Definition handler (event : RefreshBasicViewEvent)
    : Settled Err (RefreshResult QueryId) :=
  match executeStatements redshiftDataApiClient (sqlStatements event)
          serverlessRedshiftProps provisionedRedshiftProps with
  | Fulfilled id =>
      Fulfilled (mkRefreshResult id (viewName event) (timezoneWithAppId event))
  | Rejected err => Rejected err
  end.

End Handler.

(** No character of the string is a dot. *)
Fixpoint dot_free (s : string) : bool :=
  match s with
  | EmptyString => true
  | String c s' => negb (Ascii.eqb c "."%char) && dot_free s'
  end.

(** Events for trying the lambda out. *)
Definition sample_event : RefreshBasicViewEvent :=
  mkRefreshBasicViewEvent "clickstream_event_view" (mkTimezoneWithAppId "app1" "UTC").

Definition sample_event_again : RefreshBasicViewEvent :=
  mkRefreshBasicViewEvent "clickstream_event_view"
    (mkTimezoneWithAppId "app1" "Asia/Shanghai").

End RefreshBasicView.

(** ** Event items

    [src/data-pipeline/etl-common/.../sensors/event/Item.java].  [Object]
    stands for the values of [java.lang.Object] and [Double] for those of
    [double]; a reference that may be [null] is an [option]. *)
Module SensorsItem.

Section Item.

Context {Object Double : Type}.

(** The fields of the class; [unknownProperties] is a [HashMap], which
    admits the [null] key. *)
Record Item : Type := mkItem {
  unknownProperties : gmap (option string) Object;
  itemId : option string;
  region : option string;
  itemName : option string;
  price : Double;
  itemListName : option string
}.

(** [setUnknownProperty(name, value)]. *)
Definition setUnknownProperty (name : option string) (value : Object) (i : Item) : Item :=
  mkItem (<[name := value]> (unknownProperties i))
    (itemId i) (region i) (itemName i) (price i) (itemListName i).

(** [getUnknownProperties()]. *)
Definition getUnknownProperties (i : Item) : gmap (option string) Object :=
  unknownProperties i.

(** The setters that [@Setter] generates for the fields that are not
    final. *)
Definition setItemId (v : option string) (i : Item) : Item :=
  mkItem (unknownProperties i) v (region i) (itemName i) (price i) (itemListName i).

Definition setRegion (v : option string) (i : Item) : Item :=
  mkItem (unknownProperties i) (itemId i) v (itemName i) (price i) (itemListName i).

Definition setItemName (v : option string) (i : Item) : Item :=
  mkItem (unknownProperties i) (itemId i) (region i) v (price i) (itemListName i).

Definition setPrice (v : Double) (i : Item) : Item :=
  mkItem (unknownProperties i) (itemId i) (region i) (itemName i) v (itemListName i).

Definition setItemListName (v : option string) (i : Item) : Item :=
  mkItem (unknownProperties i) (itemId i) (region i) (itemName i) (price i) v.

(** A call of one of the methods that change an item. *)
Inductive ItemCall : Type :=
| CallSetUnknownProperty (name : option string) (value : Object)
| CallSetItemId (v : option string)
| CallSetRegion (v : option string)
| CallSetItemName (v : option string)
| CallSetPrice (v : Double)
| CallSetItemListName (v : option string).

Definition perform (c : ItemCall) (i : Item) : Item :=
  match c with
  | CallSetUnknownProperty name value => setUnknownProperty name value i
  | CallSetItemId v => setItemId v i
  | CallSetRegion v => setRegion v i
  | CallSetItemName v => setItemName v i
  | CallSetPrice v => setPrice v i
  | CallSetItemListName v => setItemListName v i
  end.

(** The calls made one after the other, the first of the list first. *)
Fixpoint performAll (cs : list ItemCall) (i : Item) : Item :=
  match cs with
  | [] => i
  | c :: cs' => performAll cs' (perform c i)
  end.

(** The value of the last [setUnknownProperty] call for [name]. *)
Fixpoint last_unknown (name : option string) (cs : list ItemCall) : option Object :=
  match cs with
  | [] => None
  | c :: cs' =>
      match last_unknown name cs' with
      | Some v => Some v
      | None =>
          match c with
          | CallSetUnknownProperty n v => if decide (n = name) then Some v else None
          | _ => None
          end
      end
  end.

(** The value of the last [setItemId] call. *)
Fixpoint last_itemId (cs : list ItemCall) : option (option string) :=
  match cs with
  | [] => None
  | c :: cs' =>
      match last_itemId cs' with
      | Some v => Some v
      | None =>
          match c with
          | CallSetItemId v => Some v
          | _ => None
          end
      end
  end.

End Item.

Arguments Item : clear implicits.
Arguments ItemCall : clear implicits.

End SensorsItem.

(** ** The control plane: the API construct and its stack

    [ClickStreamApiConstruct] (the file of the API construct) and
    [CloudFrontControlPlaneStack] (the control-plane stack).  The
    constructors of the CDK library and the helpers of the repository that
    are not among the sources do not fail in this model; what a constructor
    does is the list of constructs it adds and calls it makes, in order,
    each with the arguments that depend on the properties.  A construct is
    referred to by its identifier; a CDK token (a table name, an ARN, a
    parameter value) is a string given by a parameter. *)
Module ControlPlane.

(** How a constructor ends: with its object, or by [throw new Error]. *)
Inductive Built (A : Type) : Type :=
| Done (a : A)
| Failed (message : string).
Arguments Done {A} a.
Arguments Failed {A} message.

(** ['alb' | 'cloudfront']. *)
Inductive Fronting : Type := alb | cloudfront.

Inductive Runtime : Type := NODEJS_16_X | NODEJS_18_X.

(** A [CfnParameter], by its [logicalId] and [valueAsString]. *)
Record CfnParameter : Type := mkCfnParameter {
  logicalId : string;
  valueAsString : string
}.

(** An entry of [paramGroups]. *)
Record ParamGroup : Type := mkParamGroup {
  Label : string;
  Parameters : list string
}.

(** [CNCloudFrontS3PortalProps] and [DomainProps], as the stack fills
    them. *)
Record CNCloudFrontS3PortalProps : Type := mkCnProps {
  cn_domainName : string;
  cn_iamCertificateId : string
}.

Record DomainProps : Type := mkDomainProps {
  hostZone : string;
  recordName : string;
  certificate : string
}.

(** The REST API of the construct, by the stage and the authorizer it was
    made with. *)
Record RestApi (IAuthorizer : Type) : Type := mkRestApi {
  api_stageName : string;
  api_authorizer : IAuthorizer
}.
Arguments mkRestApi {IAuthorizer}.
Arguments api_stageName {IAuthorizer} r.
Arguments api_authorizer {IAuthorizer} r.

(** The private fields [paramGroups] and [paramLabels] of the stack. *)
Record ParamBook : Type := mkParamBook {
  paramGroups : list ParamGroup;
  paramLabels : gmap string string
}.

(** What the two classes take from the CDK library and from modules of
    the repository that are not among the sources: types, constants,
    tokens, the parameters the helpers of [Parameters] create, what the two
    helpers that are handed [paramGroups] and [paramLabels] do to them, and
    the OIDC properties of [SolutionCognito]. *)
Class Cdk : Type := {
  IVpc : Type;
  SubnetSelection : Type;
  ISecurityGroup : Type;
  IAuthorizer : Type;
  DicItem : Type;
  POWERTOOLS_ENVS : gmap string string;
  AWS_ACCOUNT_ID : string;
  AWS_URL_SUFFIX : string;
  tableName : string -> string;
  stateMachineArn : string -> string;
  DESCRIPTION : string;
  iamCertificateId : CfnParameter;
  domainName : CfnParameter;
  hostedZoneId : CfnParameter;
  hostedZoneName : CfnParameter;
  domainRecordName : CfnParameter;
  createDomainParameters : ParamBook -> ParamBook;
  emailParameter : CfnParameter;
  oidcProvider : CfnParameter;
  oidcClientId : CfnParameter;
  createOIDCParameters : ParamBook -> ParamBook;
  cognitoIssuer : string;
  cognitoAppClientId : string;
  controlPlaneUrl : string;
  bucketName : string;
  logBucketName : string;
  Fn_join : string -> list string -> string;
  Fn_split : string -> string -> list string;
  Fn_select : nat -> list string -> string;
  deploymentStageName : RestApi IAuthorizer -> string;
  restApiUrl : RestApi IAuthorizer -> string;
  jwtAuthorizer : IAuthorizer
}.

Section Constructs.

Context `{Cdk}.

Record ApplicationLoadBalancerProps : Type := mkApplicationLoadBalancerProps {
  alb_vpc : IVpc;
  alb_subnets : SubnetSelection;
  alb_securityGroup : ISecurityGroup
}.

Record ApiGatewayProps : Type := mkApiGatewayProps {
  stageName : string;
  authorizer : IAuthorizer
}.

(** [ClickStreamApiProps]; an optional property that is left out is
    [None]. *)
Record ClickStreamApiProps : Type := mkClickStreamApiProps {
  fronting : Fronting;
  dictionaryItems : option (list DicItem);
  applicationLoadBalancer : option ApplicationLoadBalancerProps;
  apiGateway : option ApiGatewayProps;
  targetToCNRegions : option bool;
  s3MainRegion : option string
}.

(** The object [apiFunctionProps] when it is not empty: the VPC of the
    load balancer, private subnets with egress, and the security group of
    the given identifier. *)
Record FunctionVpcProps : Type := mkFunctionVpcProps {
  fv_vpc : IVpc;
  fv_securityGroup : string
}.

(** What a constructor does, step by step. *)
Inductive Step : Type :=
| NewTable (id partitionKey : string) (sortKey timeToLiveAttribute : option string)
| AddGlobalSecondaryIndex (table indexName partitionKey sortKey : string)
| NewBatchInsertDDBCustomResource (id table : string) (toCNRegions : bool)
| NewSecurityGroup (id : string) (vpc : IVpc)
| AllowFromAllTcp (securityGroup : string) (peer : ISecurityGroup)
| AddCfnNagToSecurityGroup (securityGroup : string) (rules : list string)
| NewStackActionStateMachine
    (id table : string) (lambdaFuncProps : option FunctionVpcProps) (toCNRegions : bool)
| NewRole (id servicePrincipal : string)
| NewPolicy (id : string) (resources actions : list string)
| AttachToRole (policy role : string)
| AddCfnNagSuppressRules (target rule : string)
| NewDockerImageFunction
    (id : string) (environment : gmap string string) (role : string)
    (vpcProps : option FunctionVpcProps)
| GrantReadWriteData (table grantee : string)
| CloudWatchSendLogs (id function : string)
| CreateENI (id function : string)
| CreateLogGroupWithKmsKey
| NewLambdaRestApi (id handler stage : string) (auth : IAuthorizer)
| AddUsagePlan (id : string) (rateLimit burstLimit : Z)
| SetTemplateDescription (description : string)
| CreateIAMCertificateIdParameter
| CreateDomainNameParameter
| CreateDomainParameters
| CreateCognitoUserEmailParameter
| CreateOIDCParameters
| AddAspectInjectCustomResourceConfig (isInstallLatestAwsSdk : string)
| NewCfnOutput (id description value : string)
| FromHostedZoneAttributes (id hostedZoneId zoneName : string)
| NewDnsValidatedCertificate (id domainName hostedZone region : string)
| NewCloudFrontS3Portal
    (id : string) (cnProps : option CNCloudFrontS3PortalProps)
    (domain : option DomainProps)
| NewSolutionCognito (id email : string) (callbackUrls : list string)
| NewNodejsFunction (id : string) (runtime : Runtime) (environment : gmap string string)
| NewTokenAuthorizer (id handler validationRegex : string)
| NewOriginRequestPolicy (id : string)
| AddHttpOrigin
    (pathPattern origin originPath : string) (originRequestPolicy : option string)
| AddSourceJsonData (key oidc_provider oidc_client_id oidc_customer_domain : string)
| AddPropertyOverride (target path : string)
| SetTemplateMetadata (groups : list ParamGroup) (labels : gmap string string)
| SupressWarningsForCloudFrontS3Portal
| AddCfnNagToStack (pathsEndWith rule : string)
| AddCfnNagForLogRetention
| AddCfnNagForCustomResourceProvider (name serviceName : string)
| AddStackSuppressions (rules : list string).

(** A constructor without fields to update: its end and its steps. *)
Definition Build (A : Type) : Type := Built A * list Step.

Definition done {A} (a : A) : Build A := (Done a, []).

Definition fail {A} (message : string) : Build A := (Failed message, []).

Definition step (s : Step) : Build unit := (Done tt, [s]).

Definition andThen {A B} (m : Build A) (k : A -> Build B) : Build B :=
  match m with
  | (Done a, t1) =>
      match k a with
      | (r, t2) => (r, t1 ++ t2)
      end
  | (Failed message, t1) => (Failed message, t1)
  end.

Notation "'do!' x ':=' m 'in' k" := (andThen m (fun x => k))
  (at level 10, x name, m at level 100, k at level 200).
Notation "m ';;;' k" := (andThen m (fun _ => k))
  (at level 100, k at level 200, right associativity).

(** The fields of a [ClickStreamApiConstruct] and the properties of its
    function that depend on the construct's properties. *)
Record ClickStreamApi : Type := mkClickStreamApi {
  clickStreamApiFunction : string;
  functionEnvironment : gmap string string;
  functionVpcProps : option FunctionVpcProps;
  lambdaRestApi : option (RestApi IAuthorizer)
}.

(** The [environment] of the API function: the later spread of
    [POWERTOOLS_ENVS] wins over the keys before it. *)
Definition apiEnvironment (props : ClickStreamApiProps) : gmap string string :=
  POWERTOOLS_ENVS
  ∪ list_to_map
      [ ("CLICK_STREAM_TABLE_NAME", tableName "ClickstreamMetadata");
        ("DICTIONARY_TABLE_NAME", tableName "ClickstreamDictionary");
        ("STACK_ACTION_SATE_MACHINE", stateMachineArn "StackActionStateMachine");
        ("PREFIX_TIME_GSI_NAME", "prefix-time-index");
        ("AWS_ACCOUNT_ID", AWS_ACCOUNT_ID);
        ("AWS_URL_SUFFIX", AWS_URL_SUFFIX);
        ("S3_MAIN_REGION", default "us-east-1" (s3MainRegion props)) ].

(** The constructor of [ClickStreamApiConstruct]. *)
Definition ClickStreamApiConstruct (props : ClickStreamApiProps) : Build ClickStreamApi :=
  step (NewTable "ClickstreamDictionary" "name" None None) ;;;
  step (NewTable "ClickstreamMetadata" "id" (Some "type") (Some "ttl")) ;;;
  step (AddGlobalSecondaryIndex "ClickstreamMetadata" "prefix-time-index"
          "prefix" "createAt") ;;;
  step (NewBatchInsertDDBCustomResource "BatchInsertDDBCustomResource"
          "ClickstreamDictionary" (default false (targetToCNRegions props))) ;;;
  do! apiFunctionProps :=
    match fronting props with
    | alb =>
        match applicationLoadBalancer props with
        | None =>
            fail "Application Load Balancer fronting backend api must be have applicationLoadBalancer parameters."
        | Some lb =>
            step (NewSecurityGroup "ClickStreamApiFunctionSG" (alb_vpc lb)) ;;;
            step (AllowFromAllTcp "ClickStreamApiFunctionSG" (alb_securityGroup lb)) ;;;
            step (AddCfnNagToSecurityGroup "ClickStreamApiFunctionSG"
                    ["W29"; "W27"; "W40"; "W5"]) ;;;
            done (Some (mkFunctionVpcProps (alb_vpc lb) "ClickStreamApiFunctionSG"))
        end
    | cloudfront => done None
    end in
  step (NewStackActionStateMachine "StackActionStateMachine" "ClickstreamMetadata"
          apiFunctionProps (default false (targetToCNRegions props))) ;;;
  step (NewRole "ClickStreamApiFunctionRole" "lambda.amazonaws.com") ;;;
  step (NewPolicy "ClickStreamApiStepFunctionPolicy"
          [stateMachineArn "StackActionStateMachine"] ["states:StartExecution"]) ;;;
  step (AttachToRole "ClickStreamApiStepFunctionPolicy" "ClickStreamApiFunctionRole") ;;;
  step (NewPolicy "ClickStreamApiAWSSdkPolicy" ["*"]
          [ "kafka:ListClustersV2"; "kafka:ListClusters"; "s3:ListAllMyBuckets";
            "ec2:DescribeVpcs"; "redshift:DescribeClusters"; "account:ListRegions";
            "s3:ListBucket"; "quicksight:ListUsers"; "ec2:DescribeSubnets";
            "ec2:DescribeRouteTables"; "s3:GetBucketLocation";
            "route53:ListHostedZones"; "athena:ListWorkGroups"; "iam:ListRoles" ]) ;;;
  step (AttachToRole "ClickStreamApiAWSSdkPolicy" "ClickStreamApiFunctionRole") ;;;
  step (AddCfnNagSuppressRules "ClickStreamApiAWSSdkPolicy" "W12") ;;;
  step (NewDockerImageFunction "ClickStreamApiFunction" (apiEnvironment props)
          "ClickStreamApiFunctionRole" apiFunctionProps) ;;;
  step (GrantReadWriteData "ClickstreamDictionary" "ClickStreamApiFunction") ;;;
  step (GrantReadWriteData "ClickstreamMetadata" "ClickStreamApiFunction") ;;;
  step (CloudWatchSendLogs "api-func-logs" "ClickStreamApiFunction") ;;;
  step (CreateENI "api-func-eni" "ClickStreamApiFunction") ;;;
  do! restApi :=
    match fronting props with
    | cloudfront =>
        match apiGateway props with
        | None => fail "Cloudfront fronting backend api must be have Api Gateway parameters."
        | Some gateway =>
            step CreateLogGroupWithKmsKey ;;;
            step (NewLambdaRestApi "ClickStreamApi" "ClickStreamApiFunction"
                    (stageName gateway) (authorizer gateway)) ;;;
            step (AddUsagePlan "ClickStreamApiUsagePlan" 50 100) ;;;
            step (AddCfnNagSuppressRules "ClickStreamApiFunction" "W89") ;;;
            step (AddCfnNagSuppressRules "StackActionStateMachine/callbackFunction" "W89") ;;;
            done (Some (mkRestApi (stageName gateway) (authorizer gateway)))
        end
    | alb => done None
    end in
  done (mkClickStreamApi "ClickStreamApiFunction" (apiEnvironment props)
          apiFunctionProps restApi).

(** The function was created. *)
Definition creates_function (s : Step) : bool :=
  match s with
  | NewDockerImageFunction _ _ _ _ => true
  | _ => false
  end.

(** A table was created. *)
Definition creates_table (s : Step) : bool :=
  match s with
  | NewTable _ _ _ _ => true
  | _ => false
  end.

(** *** The control-plane stack *)

(** [CloudFrontControlPlaneStackProps]. *)
Record CloudFrontControlPlaneStackProps : Type := mkStackProps {
  sp_targetToCNRegions : option bool;
  sp_useCustomDomainName : option bool;
  sp_useExistingOIDCProvider : option bool
}.

(** [props?.f] for the optional argument [props]. *)
Definition optional (props : option CloudFrontControlPlaneStackProps)
    (f : CloudFrontControlPlaneStackProps -> option bool) : option bool :=
  match props with
  | Some p => f p
  | None => None
  end.

(** [if (x)] for an optional boolean. *)
Definition is_true (x : option bool) : bool := default false x.

(** [addToParamGroups(label, ...param)]. *)
Definition addToParamGroups (label : string) (param : list string) (book : ParamBook)
    : ParamBook :=
  mkParamBook (paramGroups book ++ [mkParamGroup label param]) (paramLabels book).

(** [addToParamLabels(label, param)]. *)
Definition addToParamLabels (label param : string) (book : ParamBook) : ParamBook :=
  mkParamBook (paramGroups book) (<[param := label]> (paramLabels book)).

(** A node of the construct tree, for [InjectCustomResourceConfig]:
    whether it is a [CfnResource], its [cfnResourceType] and its property
    overrides. *)
Record TreeNode : Type := mkTreeNode {
  isCfnResource : bool;
  cfnResourceType : string;
  propertyOverrides : gmap string string
}.

(** [InjectCustomResourceConfig.visit(node)]. *)
Definition visit (isInstallLatestAwsSdk : string) (node : TreeNode) : TreeNode :=
  if isCfnResource node && String.eqb (cfnResourceType node) "Custom::AWS" then
    mkTreeNode (isCfnResource node) (cfnResourceType node)
      (<["InstallLatestAwsSdk" := isInstallLatestAwsSdk]> (propertyOverrides node))
  else node.

(** The function [addCfnNag(stack)]. *)
Definition addCfnNag : list Step :=
  [ AddCfnNagToStack "ClickStreamApi/ApiGatewayAccessLogs/Resource" "W84";
    AddCfnNagForLogRetention;
    AddCfnNagForCustomResourceProvider
      "CDK built-in provider for DicInitCustomResourceProvider"
      "DicInitCustomResourceProvider";
    AddStackSuppressions ["AwsSolutions-IAM4"; "AwsSolutions-L1"] ].

(** A stack constructor updates the parameter book as it goes. *)
Definition Assemble (A : Type) : Type := ParamBook -> Built A * list Step * ParamBook.

Definition ready {A} (a : A) : Assemble A := fun book => (Done a, [], book).

Definition abort {A} (message : string) : Assemble A :=
  fun book => (Failed message, [], book).

Definition emit (s : Step) : Assemble unit := fun book => (Done tt, [s], book).

Definition update (f : ParamBook -> ParamBook) : Assemble unit :=
  fun book => (Done tt, [], f book).

Definition readBook : Assemble ParamBook := fun book => (Done book, [], book).

(** A construct made inside the stack. *)
Definition construct {A} (m : Build A) : Assemble A :=
  fun book => (fst m, snd m, book).

Definition next {A B} (m : Assemble A) (k : A -> Assemble B) : Assemble B :=
  fun book =>
    match m book with
    | (Done a, t1, book1) =>
        match k a book1 with
        | (r, t2, book2) => (r, t1 ++ t2, book2)
        end
    | (Failed message, t1, book1) => (Failed message, t1, book1)
    end.

Notation "'let*' x ':=' m 'in' k" := (next m (fun x => k))
  (at level 10, x name, m at level 100, k at level 200).
Notation "m ';;' k" := (next m (fun _ => k))
  (at level 100, k at level 200, right associativity).

(** The [environment] of the authorizer function. *)
Definition authorizerEnvironment (issuer : string) : gmap string string :=
  POWERTOOLS_ENVS
  ∪ list_to_map
      [ ("JWKS_URI", issuer +:+ "/.well-known/jwks.json");
        ("ISSUER", issuer) ].

(** The properties the stack makes its API construct with. *)
Definition controlPlaneApiProps (props : option CloudFrontControlPlaneStackProps)
    : ClickStreamApiProps :=
  mkClickStreamApiProps cloudfront None None
    (Some (mkApiGatewayProps "api" jwtAuthorizer))
    (optional props sp_targetToCNRegions) None.

(** The constructor of [CloudFrontControlPlaneStack]; [jwtAuthorizer] is
    the [TokenAuthorizer] it creates.  In the string of the validation regex
    the backslashes of the source are gone, as JavaScript drops them in
    front of [-] and [.]. *)
Definition CloudFrontControlPlaneStack
    (props : option CloudFrontControlPlaneStackProps) : Assemble unit :=
  emit (SetTemplateDescription (DESCRIPTION +:+ "- Control Plane")) ;;
  let* portalProps :=
    if is_true (optional props sp_targetToCNRegions) then
      emit CreateIAMCertificateIdParameter ;;
      update (addToParamLabels "Certificate Id" (logicalId iamCertificateId)) ;;
      emit CreateDomainNameParameter ;;
      update (addToParamLabels "Domain Name" (logicalId domainName)) ;;
      emit (AddAspectInjectCustomResourceConfig "true") ;;
      update (addToParamGroups "Domain Information"
                [logicalId iamCertificateId; logicalId domainName]) ;;
      emit (NewCfnOutput "CustomDomainName" "Custom domain name"
              (valueAsString domainName)) ;;
      ready (Some (mkCnProps (valueAsString domainName) (valueAsString iamCertificateId)),
             None)
    else if is_true (optional props sp_useCustomDomainName) then
      emit CreateDomainParameters ;;
      update createDomainParameters ;;
      emit (FromHostedZoneAttributes "hostZone"
              (valueAsString hostedZoneId) (valueAsString hostedZoneName)) ;;
      emit (NewDnsValidatedCertificate "certificate"
              (Fn_join "." [valueAsString domainRecordName; valueAsString hostedZoneName])
              "hostZone" "us-east-1") ;;
      ready (None,
             Some (mkDomainProps "hostZone" (valueAsString domainRecordName) "certificate"))
    else ready (None, None) in
  emit (NewCloudFrontS3Portal "cloudfront_control_plane"
          (fst portalProps) (snd portalProps)) ;;
  let* oidc :=
    if negb (is_true (optional props sp_useExistingOIDCProvider))
       && negb (is_true (optional props sp_targetToCNRegions)) then
      emit CreateCognitoUserEmailParameter ;;
      update (addToParamLabels "Admin User Email" (logicalId emailParameter)) ;;
      update (addToParamGroups "Authentication Information" [logicalId emailParameter]) ;;
      emit (NewSolutionCognito "solution-cognito" (valueAsString emailParameter)
              [controlPlaneUrl]) ;;
      ready (cognitoIssuer, cognitoAppClientId)
    else
      emit CreateOIDCParameters ;;
      update createOIDCParameters ;;
      ready (valueAsString oidcProvider, valueAsString oidcClientId) in
  let issuer := fst oidc in
  let clientId := snd oidc in
  emit (NewNodejsFunction "AuthorizerFunction"
          (if is_true (optional props sp_targetToCNRegions)
           then NODEJS_16_X else NODEJS_18_X)
          (authorizerEnvironment issuer)) ;;
  emit (AddCfnNagSuppressRules "AuthorizerFunction" "W89") ;;
  emit (NewTokenAuthorizer "JWTAuthorizer" "AuthorizerFunction"
          "^(Bearer )[a-zA-Z0-9-_]+?.[a-zA-Z0-9-_]+?.([a-zA-Z0-9-_]+)$") ;;
  let* clickStreamApi :=
    construct (ClickStreamApiConstruct (controlPlaneApiProps props)) in
  let* restApi :=
    match lambdaRestApi clickStreamApi with
    | None => abort "Backend api create error."
    | Some api => ready api
    end in
  let* behaviorOptions :=
    if negb (is_true (optional props sp_targetToCNRegions)) then
      emit (NewOriginRequestPolicy "ApiGatewayOriginRequestPolicy") ;;
      ready (Some "ApiGatewayOriginRequestPolicy")
    else ready None in
  emit (AddHttpOrigin
          ("/" +:+ deploymentStageName restApi +:+ "/*")
          (Fn_select 2 (Fn_split "/" (restApiUrl restApi)))
          ("/" +:+ deploymentStageName restApi)
          behaviorOptions) ;;
  emit (AddSourceJsonData "aws-exports.json" issuer clientId
          (controlPlaneUrl +:+ "/signin")) ;;
  emit (AddPropertyOverride "cloudfront_control_plane/distribution"
          "DistributionConfig.CustomErrorResponses") ;;
  let* book := readBook in
  emit (SetTemplateMetadata (paramGroups book) (paramLabels book)) ;;
  emit SupressWarningsForCloudFrontS3Portal ;;
  emit (NewCfnOutput "ControlPlaneUrl" "The CloudFront distribution domain name"
          controlPlaneUrl) ;;
  emit (NewCfnOutput "PortalBucket" "Bucket to store the portal asset" bucketName) ;;
  emit (NewCfnOutput "LogBucket" "Bucket to store access log" logBucketName) ;;
  fun book => (Done tt, addCfnNag, book).

(** A new stack object starts with no groups and no labels. *)
Definition emptyBook : ParamBook := mkParamBook [] ∅.

(** Observations on the steps of a stack. *)
Definition issuer_of_authorizer (s : Step) : option (option string) :=
  match s with
  | NewNodejsFunction "AuthorizerFunction" _ environment => Some (environment !! "ISSUER")
  | _ => None
  end.

Definition issuer_of_portal (s : Step) : option string :=
  match s with
  | AddSourceJsonData _ oidc_provider _ _ => Some oidc_provider
  | _ => None
  end.

Definition creates_cognito (s : Step) : bool :=
  match s with
  | NewSolutionCognito _ _ _ => true
  | _ => false
  end.

Definition creates_oidc_parameters (s : Step) : bool :=
  match s with
  | CreateOIDCParameters => true
  | _ => false
  end.

End Constructs.

(** A deployment for trying the constructors out. *)
#[global] Instance sample : Cdk := {|
  IVpc := string;
  SubnetSelection := unit;
  ISecurityGroup := string;
  IAuthorizer := string;
  DicItem := string;
  POWERTOOLS_ENVS :=
    list_to_map [ ("POWERTOOLS_SERVICE_NAME", "ClickStreamAnalyticsOnAWS");
                  ("LOG_LEVEL", "WARN") ];
  AWS_ACCOUNT_ID := "${AWS::AccountId}";
  AWS_URL_SUFFIX := "${AWS::URLSuffix}";
  tableName := fun id => "${" +:+ id +:+ ".TableName}";
  stateMachineArn := fun id => "${" +:+ id +:+ ".Arn}";
  DESCRIPTION := "Clickstream Analytics on AWS ";
  iamCertificateId := mkCfnParameter "IAMCertificateId" "${IAMCertificateId}";
  domainName := mkCfnParameter "DomainName" "${DomainName}";
  hostedZoneId := mkCfnParameter "HostedZoneId" "${HostedZoneId}";
  hostedZoneName := mkCfnParameter "HostedZoneName" "${HostedZoneName}";
  domainRecordName := mkCfnParameter "RecordName" "${RecordName}";
  createDomainParameters :=
    addToParamGroups "Domain Information"
      ["HostedZoneId"; "HostedZoneName"; "RecordName"];
  emailParameter := mkCfnParameter "Email" "${Email}";
  oidcProvider := mkCfnParameter "OIDCProvider" "${OIDCProvider}";
  oidcClientId := mkCfnParameter "OIDCClientId" "${OIDCClientId}";
  createOIDCParameters :=
    addToParamGroups "OpenID Connector Information" ["OIDCProvider"; "OIDCClientId"];
  cognitoIssuer := "https://cognito-idp/pool";
  cognitoAppClientId := "client-1";
  controlPlaneUrl := "https://portal";
  bucketName := "portal-bucket";
  logBucketName := "log-bucket";
  Fn_join := fun delimiter parts => String.concat delimiter parts;
  Fn_split := fun _ source => [source];
  Fn_select := fun n parts => nth n parts "";
  deploymentStageName := fun api => api_stageName api;
  restApiUrl := fun _ => "https://api/";
  jwtAuthorizer := "JWTAuthorizer"
|}.

Definition sample_alb_props : ClickStreamApiProps :=
  mkClickStreamApiProps alb None
    (Some (mkApplicationLoadBalancerProps "vpc-1" tt "sg-alb")) None None None.

(** The same, with properties the construct has no use for. *)
Definition sample_alb_props_more : ClickStreamApiProps :=
  mkClickStreamApiProps alb (Some ["item"])
    (Some (mkApplicationLoadBalancerProps "vpc-1" tt "sg-alb"))
    (Some (mkApiGatewayProps "api" "JWTAuthorizer")) None None.

Definition sample_cn_props : option CloudFrontControlPlaneStackProps :=
  Some (mkStackProps (Some true) (Some true) None).

Definition sample_cn_props_more : option CloudFrontControlPlaneStackProps :=
  Some (mkStackProps (Some true) None (Some true)).

End ControlPlane.

(** * Properties *)

Ltac unfold_service :=
  unfold createAttributionAnalysisVisual, createAttributionAnalysisVisual_try,
    createSinglePointModelVisual, createLinearModelVisual,
    createPositionBasedModelVisual, createModelVisual, uuidv4,
    bind, call, await, respond, ret, outcome_of, calls_of, generator_of,
    encodedQuery in *.

(** Two different members of [AttributionModelType] are never both equal
    to one value. *)
Lemma loose_eq_name_excl (v : JsVal) (a b : string) :
  a ≠ b -> loose_eq_name v a = true -> loose_eq_name v b = false.
Proof.
  intros Hab Ha. destruct v; simpl in *; try reflexivity.
  all: apply String.eqb_eq in Ha; subst; apply String.eqb_neq; exact Hab.
Qed.

Section ServiceProperties.

Context `{Collaborators}.

(** *** How the blocks of the handler run *)

Lemma createModelVisual_run (visualSql : string) (sheetId : JsVal) (query : Query)
    (pipeline : IPipeline) (n : nat) :
  let viewName := getTempResourceName (get query "viewName") (get query "action") in
  let visualId := uuid_of n in
  let locale := coalesce (get query "locale") (JStr EN_US) in
  let chartType := coalesce (get query "chartType") (JStr TABLE) in
  let datasets :=
    [ mkDataSetProps viewName attributionVisualColumns "DIRECT_QUERY" visualSql
        [ "Trigger Count"; "Touch Point Name"; "Number of Total Conversion";
          "Number of Triggers with Conversion"; "Contribution(number/sum...value)";
          "Contribution Rate" ] ] in
  let props :=
    mkVisualRelatedDefParams
      (get query "timeScopeType") sheetId visualId viewName
      (get query "lastN") (get query "timeUnit")
      (get query "timeStart") (get query "timeEnd") in
  let e1 := Call_getTempResourceName (get query "viewName") (get query "action") in
  let e2 := Call_uuidv4 n in
  let e3 := Call_getDashboardTitleProps ATTRIBUTION query in
  createModelVisual visualSql sheetId query pipeline n
  = match getDashboardTitleProps ATTRIBUTION query with
    | Rejected e => (Thrown e, [e1; e2; e3], S n)
    | Fulfilled titleProps =>
        let visualDef :=
          getAttributionTableVisualDef visualId viewName titleProps chartType in
        let e4 :=
          Call_getAttributionTableVisualDef visualId viewName titleProps chartType in
        let e5 := Call_getVisualRelatedDefs props locale in
        match getVisualRelatedDefs props locale with
        | Rejected e => (Thrown e, [e1; e2; e3; e4; e5], S n)
        | Fulfilled vr =>
            let visuals :=
              [ mkVisualProps sheetId CHART visualId visualDef []
                  (filterControl vr) (parameterDeclarations vr) (filterGroup vr) ] in
            let e6 :=
              Call_createDashboardVisuals
                sheetId viewName query pipeline datasets visuals in
            match createDashboardVisuals
                    sheetId viewName query pipeline datasets visuals with
            | Rejected e => (Thrown e, [e1; e2; e3; e4; e5; e6], S n)
            | Fulfilled r => (Normal r, [e1; e2; e3; e4; e5; e6], S n)
            end
        end
    end.
Proof.
  intros. unfold createModelVisual, uuidv4, bind, call, await. simpl.
  destruct (getDashboardTitleProps ATTRIBUTION query); simpl; [|reflexivity].
  fold viewName visualId locale chartType props.
  destruct (getVisualRelatedDefs props locale); simpl; [|reflexivity].
  fold datasets.
  match goal with |- context [createDashboardVisuals ?a ?b ?c ?d ?e ?f] =>
    destruct (createDashboardVisuals a b c d e f) end; reflexivity.
Qed.

Lemma createSinglePointModelVisual_run sheetId query pipeline n :
  createSinglePointModelVisual sheetId query pipeline n
  = let '(c, t, n') :=
      createModelVisual (buildSQLForSinglePointModel (sqlParameters query))
        sheetId query pipeline n in
    (c, Call_buildSQLForSinglePointModel (sqlParameters query) :: t, n').
Proof.
  unfold createSinglePointModelVisual, bind, call.
  destruct (createModelVisual _ _ _ _ _) as [[c t] n']. reflexivity.
Qed.

Lemma createLinearModelVisual_run sheetId query pipeline n :
  createLinearModelVisual sheetId query pipeline n
  = let '(c, t, n') :=
      createModelVisual (buildSQLForLinearModel (sqlParameters query))
        sheetId query pipeline n in
    (c, Call_buildSQLForLinearModel (sqlParameters query) :: t, n').
Proof.
  unfold createLinearModelVisual, bind, call.
  destruct (createModelVisual _ _ _ _ _) as [[c t] n']. reflexivity.
Qed.

Lemma createPositionBasedModelVisual_run sheetId query pipeline n :
  createPositionBasedModelVisual sheetId query pipeline n
  = let '(c, t, n') :=
      createModelVisual (buildSQLForPositionModel (sqlParameters query))
        sheetId query pipeline n in
    (c, Call_buildSQLForPositionModel (sqlParameters query) :: t, n').
Proof.
  unfold createPositionBasedModelVisual, bind, call.
  destruct (createModelVisual _ _ _ _ _) as [[c t] n']. reflexivity.
Qed.

Lemma resolveSheetId_run query n :
  resolveSheetId query n
  = if truthy (get query "dashboardId") then
      if truthy (get query "sheetId") then (Normal (get query "sheetId"), [], n)
      else (Returned (mkResponse 400 (ApiFail "missing required parameter sheetId")),
            [], n)
    else (Normal (JStr (uuid_of n)), [Call_uuidv4 n], S n).
Proof.
  unfold resolveSheetId, uuidv4, bind, ret, respond.
  destruct (truthy (get query "dashboardId")); simpl; [|reflexivity].
  destruct (truthy (get query "sheetId")); reflexivity.
Qed.

Lemma conclude_run query result n :
  conclude query result n
  = (Returned
       match result with
       | Some r =>
           if String.eqb (dashboardEmbedUrl r) ""
              && strict_eq_str (get query "action") ExploreRequestAction.PREVIEW
           then mkResponse 500
                  (ApiFail "Failed to create resources, please try again later.")
           else mkResponse 201 (ApiSuccess r)
       | None =>
           mkResponse 500
             (ApiFail "Failed to create resources, please try again later.")
       end, [], n).
Proof.
  unfold conclude, respond. destruct result as [r|]; [|reflexivity].
  destruct (_ && _); reflexivity.
Qed.

(** A run that passes validation and finds its pipeline. *)
Lemma valid_run (query : Query) (n : nat) (pipeline : IPipeline) :
  success (checkAttributionAnalysisParameter query) = true ->
  getPipelineByProjectId (get query "projectId") = Fulfilled (Some pipeline) ->
  let q := encodedQuery query pipeline in
  let pre :=
    [ Call_checkAttributionAnalysisParameter query;
      Call_getPipelineByProjectId (get query "projectId");
      Call_getTimezoneByAppId pipeline (get query "appId");
      Call_encodeAttributionQueryValueForSql
        (<["timezone" := JStr (getTimezoneByAppId pipeline (get query "appId"))]> query) ] in
  createAttributionAnalysisVisual query n
  = match resolveSheetId q n with
    | (Normal sheetId, t1, n1) =>
        match dispatchModel sheetId q pipeline n1 with
        | (Normal result, t2, n2) =>
            match conclude q result n2 with
            | (Normal r, t3, n3) | (Returned r, t3, n3) =>
                (Responded r, pre ++ t1 ++ t2 ++ t3, n3)
            | (Thrown e, t3, n3) => (Next e, pre ++ t1 ++ t2 ++ t3, n3)
            end
        | (Returned r, t2, n2) => (Responded r, pre ++ t1 ++ t2, n2)
        | (Thrown e, t2, n2) => (Next e, pre ++ t1 ++ t2, n2)
        end
    | (Returned r, t1, n1) => (Responded r, pre ++ t1, n1)
    | (Thrown e, t1, n1) => (Next e, pre ++ t1, n1)
    end.
Proof.
  intros Hc Hp q pre.
  unfold createAttributionAnalysisVisual, createAttributionAnalysisVisual_try.
  unfold bind at 1. unfold call at 1. rewrite Hc. cbn [negb].
  unfold bind at 1. unfold await at 1. rewrite Hp.
  unfold bind at 1. unfold call at 1.
  unfold bind at 1. unfold call at 1. fold (encodedQuery query pipeline). fold q.
  unfold bind at 1.
  destruct (resolveSheetId q n) as [[[sheetId|r|e] t1] n1]; try reflexivity.
  unfold bind at 1.
  destruct (dispatchModel sheetId q pipeline n1) as [[[result|r|e] t2] n2];
    try reflexivity.
  destruct (conclude q result n2) as [[[r|r|e] t3] n3]; reflexivity.
Qed.

(** The case analysis behind the properties of whole runs: every way a
    run that passed validation and found [pipeline] can go on. *)
Ltac explore_valid query n pipeline Hc Hp :=
  rewrite (valid_run query n pipeline Hc Hp);
  rewrite resolveSheetId_run;
  destruct (truthy (get (encodedQuery query pipeline) "dashboardId")) eqn:Hdash;
  [ destruct (truthy (get (encodedQuery query pipeline) "sheetId")) eqn:Hsheet | ];
  try (unfold dispatchModel;
       destruct (loose_eq_name (get (encodedQuery query pipeline) "modelType")
                   AttributionModelType.LAST_TOUCH
                 || loose_eq_name (get (encodedQuery query pipeline) "modelType")
                      AttributionModelType.FIRST_TOUCH) eqn:Hsingle;
       [ | destruct (loose_eq_name (get (encodedQuery query pipeline) "modelType")
                       AttributionModelType.LINEAR) eqn:Hlinear;
           [ | destruct (loose_eq_name (get (encodedQuery query pipeline) "modelType")
                           AttributionModelType.POSITION) eqn:Hposition ] ];
       rewrite ?createSinglePointModelVisual_run, ?createLinearModelVisual_run,
         ?createPositionBasedModelVisual_run, ?createModelVisual_run;
       cbv zeta;
       repeat match goal with
         | |- context [getDashboardTitleProps ?a ?b] =>
             destruct (getDashboardTitleProps a b) as [titleProps|err] eqn:Htitle
         | |- context [getVisualRelatedDefs ?a ?b] =>
             destruct (getVisualRelatedDefs a b) as [vr|err] eqn:Hrelated
         | |- context [createDashboardVisuals ?a ?b ?c ?d ?e ?f] =>
             destruct (createDashboardVisuals a b c d e f) as [result|err] eqn:Hvisuals
         end;
       rewrite ?conclude_run);
  cbn [negb outcome_of calls_of generator_of fst snd app].

(** Every way a run can go. *)
Ltac explore query n :=
  let Hc := fresh "Hcheck" in
  let Hp := fresh "Hpipe" in
  let pipeline := fresh "pipeline" in
  destruct (success (checkAttributionAnalysisParameter query)) eqn:Hc;
  [ destruct (getPipelineByProjectId (get query "projectId"))
      as [[pipeline|]|err] eqn:Hp;
    [ explore_valid query n pipeline Hc Hp
    | unfold createAttributionAnalysisVisual, createAttributionAnalysisVisual_try,
        bind, call, await, respond; rewrite Hc, Hp
    | unfold createAttributionAnalysisVisual, createAttributionAnalysisVisual_try,
        bind, call, await, respond; rewrite Hc, Hp ]
  | unfold createAttributionAnalysisVisual, createAttributionAnalysisVisual_try,
      bind, call, await, respond; rewrite Hc ];
  cbn [negb outcome_of calls_of generator_of fst snd app].

(** Names the run, so that the case analysis works on one copy of it. *)
Ltac isolate_run query n :=
  let run := fresh "run" in
  let Hrun := fresh "Hrun" in
  remember (createAttributionAnalysisVisual query n) as run eqn:Hrun;
  symmetry in Hrun; revert Hrun.

Ltac resume_run :=
  intros <-; cbn [outcome_of calls_of generator_of fst snd].

(** The members of [AttributionModelType] exclude each other. *)
Ltac exclusive_model_types :=
  repeat match goal with
  | Ha : loose_eq_name ?v ?a = true, Hb : loose_eq_name ?v ?b = true |- _ =>
      lazymatch a with
      | b => fail
      | _ => exfalso;
             rewrite (loose_eq_name_excl v a b ltac:(discriminate) Ha) in Hb;
             discriminate Hb
      end
  end.

Lemma sqlParameters_fields (query : Query) :
  sqlParameters query !! "schemaName" = Some (get query "appId")
  /\ sqlParameters query !! "dbName" = Some (get query "projectId")
  /\ forall k : string,
       k <> "schemaName" -> k <> "dbName" -> sqlParameters query !! k = query !! k.
Proof.
  unfold sqlParameters. split; [|split].
  - rewrite lookup_insert_ne by discriminate. apply lookup_insert_eq.
  - apply lookup_insert_eq.
  - intros k H1 H2. rewrite !lookup_insert_ne by congruence. reflexivity.
Qed.

Lemma strict_eq_str_spec (v : JsVal) (s : string) :
  strict_eq_str v s = true <-> v = JStr s.
Proof.
  destruct v; simpl; split; try discriminate.
  - intros E. apply String.eqb_eq in E. congruence.
  - intros E. injection E as ->. apply String.eqb_refl.
Qed.

Lemma coalesce_spec (v d : JsVal) :
  (v = JUndefined \/ v = JNull -> coalesce v d = d)
  /\ (v <> JUndefined -> v <> JNull -> coalesce v d = v).
Proof.
  split.
  - intros [->| ->]; reflexivity.
  - intros H1 H2. destruct v; try reflexivity; contradiction.
Qed.


(** C5.  A request that fails parameter validation is answered with
    HTTP 400 carrying the validator's message; nothing is thrown (the
    outcome is a response, not [next(error)]), and the validator is the
    only collaborator called: no pipeline lookup, no SQL builder, no
    visualization call, no identifier drawn. *)
Theorem invalid_request_is_rejected_without_side_effects (query : Query) (n : nat) :
  success (checkAttributionAnalysisParameter query) = false ->
  createAttributionAnalysisVisual query n
  = (Responded (mkResponse 400
                  (ApiFail (message (checkAttributionAnalysisParameter query)))),
     [Call_checkAttributionAnalysisParameter query],
     n).
Proof.
  intros Hcheck. unfold_service. rewrite Hcheck. reflexivity.
Qed.

(** C6.  A valid request whose [projectId] resolves to no pipeline is
    answered with HTTP 404; the calls made are the validator and the
    pipeline lookup, so no SQL builder and no visualization call. *)
Theorem unknown_project_is_not_found (query : Query) (n : nat) :
  success (checkAttributionAnalysisParameter query) = true ->
  getPipelineByProjectId (get query "projectId") = Fulfilled None ->
  let run := createAttributionAnalysisVisual query n in
  outcome_of run = Responded (mkResponse 404 (ApiFail "Pipeline not found"))
  /\ calls_of run
     = [Call_checkAttributionAnalysisParameter query;
        Call_getPipelineByProjectId (get query "projectId")]
  /\ List.filter is_builder_call (calls_of run) = []
  /\ List.filter is_visualization_call (calls_of run) = [].
Proof.
  intros Hcheck Hpipe. unfold_service. rewrite Hcheck, Hpipe. simpl.
  repeat split; reflexivity.
Qed.

(** C1.  A run that passes validation, finds its pipeline and is not
    stopped for a missing [sheetId] dispatches on the [modelType] of the
    query: FIRST_TOUCH or LAST_TOUCH calls the single-point builder (and
    no other builder), LINEAR the linear builder, POSITION the position
    builder; any other value is answered with HTTP 400, and then no
    builder and no visualization collaborator is called. *)
Theorem dispatch_on_model_type (query : Query) (n : nat) (pipeline : IPipeline) :
  success (checkAttributionAnalysisParameter query) = true ->
  getPipelineByProjectId (get query "projectId") = Fulfilled (Some pipeline) ->
  let q := encodedQuery query pipeline in
  (truthy (get q "dashboardId") = true -> truthy (get q "sheetId") = true) ->
  let run := createAttributionAnalysisVisual query n in
  let modelType := get q "modelType" in
  (loose_eq_name modelType AttributionModelType.FIRST_TOUCH = true
   \/ loose_eq_name modelType AttributionModelType.LAST_TOUCH = true ->
   List.filter is_builder_call (calls_of run)
   = [Call_buildSQLForSinglePointModel (sqlParameters q)])
  /\ (loose_eq_name modelType AttributionModelType.LINEAR = true ->
      List.filter is_builder_call (calls_of run)
      = [Call_buildSQLForLinearModel (sqlParameters q)])
  /\ (loose_eq_name modelType AttributionModelType.POSITION = true ->
      List.filter is_builder_call (calls_of run)
      = [Call_buildSQLForPositionModel (sqlParameters q)])
  /\ (loose_eq_name modelType AttributionModelType.FIRST_TOUCH = false ->
      loose_eq_name modelType AttributionModelType.LAST_TOUCH = false ->
      loose_eq_name modelType AttributionModelType.LINEAR = false ->
      loose_eq_name modelType AttributionModelType.POSITION = false ->
      outcome_of run
      = Responded (mkResponse 400 (ApiFail "Invalid attribution analysis model type"))
      /\ List.filter is_builder_call (calls_of run) = []
      /\ List.filter is_visualization_call (calls_of run) = []).
Proof.
  intros Hc Hp q Hgate run modelType. subst run q modelType.
  isolate_run query n. explore_valid query n pipeline Hc Hp; resume_run.
  all: try (specialize (Hgate eq_refl); discriminate Hgate).
  all: try (apply Bool.orb_true_iff in Hsingle; destruct Hsingle as [Hsingle|Hsingle]).
  all: try (apply Bool.orb_false_iff in Hsingle; destruct Hsingle as [Hlast Hfirst]).
  all: repeat split; intros;
    repeat match goal with H : _ \/ _ |- _ => destruct H end;
    exclusive_model_types; try congruence; reflexivity.
Qed.

(** C4.  When a run reaches the visualization provider and the provider
    returns a result [r], the run ends in a response: if the embed URL
    of [r] is empty the status is 500 exactly when the query's [action]
    is PREVIEW, and with another action or a non-empty embed URL the
    response is 201 with [r] as its body.  The query the provider and
    the final test see is the request body as encoded. *)
Theorem empty_embed_url_fails_previews_only
    (query : Query) (n : nat) (sheetId : JsVal) (viewName : string) (q : Query)
    (pl : IPipeline) (datasets : list (DataSetProps Columns))
    (visuals : list (VisualProps VisualDef FilterControl ParameterDeclarations FilterGroup))
    (r : CreateDashboardResult) :
  let run := createAttributionAnalysisVisual query n in
  In (Call_createDashboardVisuals sheetId viewName q pl datasets visuals)
     (calls_of run) ->
  createDashboardVisuals sheetId viewName q pl datasets visuals
  = Fulfilled (Some r) ->
  q = encodedQuery query pl
  /\ exists resp,
       outcome_of run = Responded resp
       /\ (dashboardEmbedUrl r = "" ->
           (status resp = 500 <-> get q "action" = JStr ExploreRequestAction.PREVIEW))
       /\ (get q "action" <> JStr ExploreRequestAction.PREVIEW
           \/ dashboardEmbedUrl r <> "" ->
           resp = mkResponse 201 (ApiSuccess r)).
Proof.
  intros run. subst run. isolate_run query n.
  explore query n; resume_run; intros Hin Hres; simpl in Hin.
  all: repeat destruct Hin as [Hin|Hin]; try contradiction; try discriminate Hin.
  all: injection Hin as <- <- <- <- <- <-.
  all: rewrite Hvisuals in Hres; try discriminate Hres; injection Hres as ->.
  all: split; [reflexivity|]; eexists; split; [reflexivity|].
  all: destruct (String.eqb_spec (dashboardEmbedUrl r) "") as [Hurl|Hurl];
    destruct (strict_eq_str (get (encodedQuery query pipeline) "action")
                ExploreRequestAction.PREVIEW) eqn:Hact; cbn [andb status].
  all: try (apply strict_eq_str_spec in Hact).
  all: try (assert (Hne : get (encodedQuery query pipeline) "action"
                          <> JStr ExploreRequestAction.PREVIEW)
              by (intros Heq; apply strict_eq_str_spec in Heq; congruence)).
  all: split; [intros Hempty; split; intros; congruence || lia
              | intros [Hother|Hother]; congruence].
Qed.

(** C7.  In a run that passes validation and finds its pipeline, the
    sheet identifier is settled from the query as it stands after
    encoding.  [dashboardId] absent (falsy): the next identifier of the
    generator is drawn, the generator advances, and that identifier is
    the sheet of every later call.  [dashboardId] present and [sheetId]
    absent: the answer is HTTP 400 and no SQL builder and no
    visualization collaborator is called.  Both present: no identifier
    is drawn for the sheet and the query's own [sheetId] is the sheet of
    every later call. *)
Theorem sheet_id_resolution (query : Query) (n : nat) (pipeline : IPipeline) :
  success (checkAttributionAnalysisParameter query) = true ->
  getPipelineByProjectId (get query "projectId") = Fulfilled (Some pipeline) ->
  let q := encodedQuery query pipeline in
  let run := createAttributionAnalysisVisual query n in
  (truthy (get q "dashboardId") = false ->
   resolveSheetId q n = (Normal (JStr (uuid_of n)), [Call_uuidv4 n], S n)
   /\ In (Call_uuidv4 n) (calls_of run)
   /\ (n < generator_of run)%nat
   /\ Forall (uses_sheetId (JStr (uuid_of n))) (calls_of run))
  /\ (truthy (get q "dashboardId") = true -> truthy (get q "sheetId") = false ->
      outcome_of run
      = Responded (mkResponse 400 (ApiFail "missing required parameter sheetId"))
      /\ List.filter is_builder_call (calls_of run) = []
      /\ List.filter is_visualization_call (calls_of run) = [])
  /\ (truthy (get q "dashboardId") = true -> truthy (get q "sheetId") = true ->
      resolveSheetId q n = (Normal (get q "sheetId"), [], n)
      /\ Forall (uses_sheetId (get q "sheetId")) (calls_of run)).
Proof.
  intros Hc Hp q run. subst run q.
  rewrite !resolveSheetId_run.
  isolate_run query n. explore_valid query n pipeline Hc Hp; resume_run.
  all: repeat split; intros; try discriminate; try reflexivity.
  all: try (simpl; tauto); try (simpl; lia).
  all: repeat (apply Forall_cons; split); try apply Forall_nil; simpl; auto.
Qed.

(** C8.  In a run that calls a SQL builder the encoder is called exactly
    once: directly after the timezone was resolved from the pipeline and
    the [appId] and stored in the query, and before the builder, which is
    the only builder called and receives the parameters made of the
    encoder's result. *)
Theorem encoder_runs_once_before_the_builder (query : Query) (n : nat) :
  let run := createAttributionAnalysisVisual query n in
  List.filter is_builder_call (calls_of run) <> [] ->
  exists pipeline between builder after,
    getPipelineByProjectId (get query "projectId") = Fulfilled (Some pipeline)
    /\ let timezone := getTimezoneByAppId pipeline (get query "appId") in
       let encoded :=
         encodeAttributionQueryValueForSql (<["timezone" := JStr timezone]> query) in
       calls_of run
       = [ Call_checkAttributionAnalysisParameter query;
           Call_getPipelineByProjectId (get query "projectId");
           Call_getTimezoneByAppId pipeline (get query "appId");
           Call_encodeAttributionQueryValueForSql
             (<["timezone" := JStr timezone]> query) ]
         ++ between ++ builder :: after
       /\ builder_params builder = Some (sqlParameters encoded)
       /\ List.filter is_encoder_call between = []
       /\ List.filter is_builder_call between = []
       /\ List.filter is_encoder_call after = []
       /\ List.filter is_builder_call after = []
       /\ length (List.filter is_encoder_call (calls_of run)) = 1%nat.
Proof.
  intros run. subst run. isolate_run query n.
  explore query n; resume_run; intros Hne; simpl in Hne.
  all: try (exfalso; apply Hne; reflexivity).
  all: exists pipeline.
  all: first
    [ exists []; do 2 eexists; split; [reflexivity|];
      cbv zeta; split; [reflexivity|]; repeat split; reflexivity
    | exists [Call_uuidv4 n]; do 2 eexists; split; [reflexivity|];
      cbv zeta; split; [reflexivity|]; repeat split; reflexivity ].
Qed.

(** C9.  Whenever a run calls a SQL builder (single-point, linear or
    position), the parameters it passes are made of the query object of
    that moment (the request body with its timezone set, as encoded):
    [schemaName] is the query's [appId], [dbName] is its [projectId], and
    every other field is the query's own. *)
Theorem builders_receive_schema_and_db
    (query : Query) (n : nat) (e : Event) (p : Query) :
  In e (calls_of (createAttributionAnalysisVisual query n)) ->
  builder_params e = Some p ->
  exists pipeline,
    getPipelineByProjectId (get query "projectId") = Fulfilled (Some pipeline)
    /\ let q := encodedQuery query pipeline in
       p !! "schemaName" = Some (get q "appId")
       /\ p !! "dbName" = Some (get q "projectId")
       /\ forall k : string, k <> "schemaName" -> k <> "dbName" -> p !! k = q !! k.
Proof.
  isolate_run query n. explore query n; resume_run; intros Hin Hb; simpl in Hin.
  all: repeat destruct Hin as [<-|Hin]; try contradiction; try discriminate Hb.
  all: simpl in Hb; injection Hb as <-; eexists; split;
    [reflexivity | apply sqlParameters_fields].
Qed.

(** C10.  The locale every run hands to [getVisualRelatedDefs] is the
    query's [locale], or EN_US when that field is absent ([undefined] or
    [null]); the chart type it hands to [getAttributionTableVisualDef] is
    the query's [chartType], or TABLE when that field is absent. *)
Theorem locale_and_chart_type_defaults (query : Query) (n : nat) :
  let run := createAttributionAnalysisVisual query n in
  (forall props locale,
     In (Call_getVisualRelatedDefs props locale) (calls_of run) ->
     exists pipeline,
       getPipelineByProjectId (get query "projectId") = Fulfilled (Some pipeline)
       /\ let q := encodedQuery query pipeline in
          (get q "locale" = JUndefined \/ get q "locale" = JNull ->
           locale = JStr EN_US)
          /\ (get q "locale" <> JUndefined -> get q "locale" <> JNull ->
              locale = get q "locale"))
  /\ (forall visualId viewName titleProps chartType,
        In (Call_getAttributionTableVisualDef visualId viewName titleProps chartType)
           (calls_of run) ->
        exists pipeline,
          getPipelineByProjectId (get query "projectId") = Fulfilled (Some pipeline)
          /\ let q := encodedQuery query pipeline in
             (get q "chartType" = JUndefined \/ get q "chartType" = JNull ->
              chartType = JStr TABLE)
             /\ (get q "chartType" <> JUndefined -> get q "chartType" <> JNull ->
                 chartType = get q "chartType")).
Proof.
  intros run. subst run. isolate_run query n.
  explore query n; resume_run; split; intros * Hin; simpl in Hin.
  all: repeat destruct Hin as [Hin|Hin]; try contradiction; try discriminate Hin.
  all: injection Hin; clear Hin; intros; subst.
  all: eexists; split; [reflexivity | apply coalesce_spec].
Qed.


(** *** Further properties of whole runs *)



(** X1.  Every response of the service carries one of the status codes
    201, 400, 404 and 500; the body is the dashboard result exactly for
    201 and a failure message for the other three. *)
Theorem response_status_codes (query : Query) (n : nat)
    (resp : Response CreateDashboardResult) :
  outcome_of (createAttributionAnalysisVisual query n) = Responded resp ->
  (status resp = 201 /\ exists r, body resp = ApiSuccess r)
  \/ ((status resp = 400 \/ status resp = 404 \/ status resp = 500)
      /\ exists m, body resp = ApiFail m).
Proof.
  isolate_run query n. explore query n; resume_run; intros Hout.
  all: try discriminate Hout; injection Hout as <-.
  all: try (destruct result as [r|]; [destruct (_ && _)|]); cbn [status body].
  all: first [ left; split; [reflexivity | eexists; reflexivity]
             | right; split; [tauto | eexists; reflexivity] ].
Qed.

(** X2.  A 201 is sent only when the last call of the run was the
    visualization provider, the provider returned a result, and that result
    is the body; one SQL builder was called before, and for a PREVIEW the
    embed URL of the result is not empty. *)
Theorem created_only_after_visualization (query : Query) (n : nat)
    (resp : Response CreateDashboardResult) :
  let run := createAttributionAnalysisVisual query n in
  outcome_of run = Responded resp ->
  status resp = 201 ->
  exists pre sheetId viewName q pipeline datasets visuals r,
    calls_of run
    = pre ++ [Call_createDashboardVisuals sheetId viewName q pipeline datasets visuals]
    /\ createDashboardVisuals sheetId viewName q pipeline datasets visuals
       = Fulfilled (Some r)
    /\ resp = mkResponse 201 (ApiSuccess r)
    /\ length (List.filter is_builder_call pre) = 1%nat
    /\ (get q "action" = JStr ExploreRequestAction.PREVIEW ->
        dashboardEmbedUrl r <> "").
Proof.
  intros run. subst run. isolate_run query n.
  explore query n; resume_run; intros Hout Hstatus.
  all: try discriminate Hout; injection Hout as <-.
  all: try (destruct result as [r|];
            [destruct (String.eqb_spec (dashboardEmbedUrl r) "") as [Hurl|Hurl];
             [destruct (strict_eq_str (get (encodedQuery query pipeline) "action")
                          ExploreRequestAction.PREVIEW) eqn:Hact|]|]).
  all: cbn [andb status] in Hstatus; try discriminate Hstatus.
  all: match goal with
       | |- exists pre, exists s v q p d vs r, ?l = _ /\ _ =>
           exists (List.removelast l)
       end; do 6 eexists; exists r.
  all: split; [reflexivity|]; split; [exact Hvisuals|]; split; [reflexivity|].
  all: split; [reflexivity|]; intros Hpreview.
  all: try exact Hurl.
  all: apply strict_eq_str_spec in Hpreview; congruence.
Qed.


(** X4.  A run draws at most two identifiers, consecutively from the
    state the generator was in, and leaves the generator advanced by the
    number it drew: no identifier is handed out twice. *)
Theorem identifiers_are_drawn_in_sequence (query : Query) (n : nat) :
  let run := createAttributionAnalysisVisual query n in
  exists k : nat,
    (k <= 2)%nat
    /\ generator_of run = (n + k)%nat
    /\ uuid_draws (calls_of run) = List.seq n k.
Proof.
  intros run. subst run. isolate_run query n. explore query n; resume_run.
  all: first
    [ exists 0%nat; split; [lia|]; split; [simpl; lia | reflexivity]
    | exists 1%nat; split; [lia|]; split; [simpl; lia | reflexivity]
    | exists 2%nat; split; [lia|]; split; [simpl; lia | reflexivity] ].
Qed.

(** X5.  Whenever the visualization provider is called it receives exactly
    one dataset: in direct-query mode, named like the view (the temporary
    resource name of the query's [viewName] and [action]), and with the
    custom SQL that the builder called earlier in the same run returned for
    the parameters made of the very query the provider receives. *)
Theorem dataset_carries_the_builder_sql
    (query : Query) (n : nat) (sheetId : JsVal) (viewName : string) (q : Query)
    (pl : IPipeline) (datasets : list (DataSetProps Columns))
    (visuals : list (VisualProps VisualDef FilterControl ParameterDeclarations FilterGroup)) :
  let run := createAttributionAnalysisVisual query n in
  In (Call_createDashboardVisuals sheetId viewName q pl datasets visuals)
     (calls_of run) ->
  exists builder sql,
    In builder (calls_of run)
    /\ builder_params builder = Some (sqlParameters q)
    /\ builder_sql builder = Some sql
    /\ viewName = getTempResourceName (get q "viewName") (get q "action")
    /\ datasets
       = [ mkDataSetProps viewName attributionVisualColumns "DIRECT_QUERY" sql
             [ "Trigger Count"; "Touch Point Name"; "Number of Total Conversion";
               "Number of Triggers with Conversion";
               "Contribution(number/sum...value)"; "Contribution Rate" ] ].
Proof.
  intros run. subst run. isolate_run query n.
  explore query n; resume_run; intros Hin; simpl in Hin.
  all: repeat destruct Hin as [Hin|Hin]; try contradiction; try discriminate Hin.
  all: injection Hin as <- <- <- <- <- <-.
  all: match goal with
       | |- context [In _ (_ :: _ :: _ :: _ :: Call_uuidv4 _ :: ?b :: _)] => exists b
       | |- context [In _ (_ :: _ :: _ :: _ :: ?b :: _)] => exists b
       end.
  all: eexists; split; [simpl; tauto|]; repeat split; reflexivity.
Qed.

(** X6.  Whenever the visualization provider is called it receives exactly
    one visual, on the sheet it is called for and named CHART; the visual's
    identifier is the one the table definition and the filter definitions
    were requested for earlier in the same run, its definition is the
    table definition returned, and its filter control, parameter
    declarations and filter group are the ones [getVisualRelatedDefs]
    returned. *)
Theorem visual_is_wired_to_its_definitions
    (query : Query) (n : nat) (sheetId : JsVal) (viewName : string) (q : Query)
    (pl : IPipeline) (datasets : list (DataSetProps Columns))
    (visuals : list (VisualProps VisualDef FilterControl ParameterDeclarations FilterGroup)) :
  let run := createAttributionAnalysisVisual query n in
  In (Call_createDashboardVisuals sheetId viewName q pl datasets visuals)
     (calls_of run) ->
  exists visualId titleProps chartType props locale related,
    In (Call_getAttributionTableVisualDef visualId viewName titleProps chartType)
       (calls_of run)
    /\ In (Call_getVisualRelatedDefs props locale) (calls_of run)
    /\ getVisualRelatedDefs props locale = Fulfilled related
    /\ vr_visualId props = visualId
    /\ vr_sheetId props = sheetId
    /\ vr_viewName props = viewName
    /\ visuals
       = [ mkVisualProps sheetId CHART visualId
             (getAttributionTableVisualDef visualId viewName titleProps chartType) []
             (filterControl related) (parameterDeclarations related)
             (filterGroup related) ].
Proof.
  intros run. subst run. isolate_run query n.
  explore query n; resume_run; intros Hin; simpl in Hin.
  all: repeat destruct Hin as [Hin|Hin]; try contradiction; try discriminate Hin.
  all: injection Hin as <- <- <- <- <- <-.
  all: do 5 eexists; exists vr.
  all: split; [simpl; repeat (first [left; reflexivity | right])|].
  all: split; [simpl; repeat (first [left; reflexivity | right])|].
  all: split; [exact Hrelated|]; repeat split; reflexivity.
Qed.

(** X7.  In one run the pipeline is looked up at most once, the encoder
    runs at most once, at most one SQL builder is called and the
    visualization provider is called at most once. *)
Theorem collaborators_are_called_at_most_once (query : Query) (n : nat) :
  let calls := calls_of (createAttributionAnalysisVisual query n) in
  (length (List.filter is_pipeline_lookup calls) <= 1)%nat
  /\ (length (List.filter is_encoder_call calls) <= 1)%nat
  /\ (length (List.filter is_builder_call calls) <= 1)%nat
  /\ (length (List.filter is_provider_call calls) <= 1)%nat.
Proof.
  intros calls. subst calls. isolate_run query n. explore query n; resume_run.
  all: simpl; lia.
Qed.

(** X8.  When the visualization provider resolves to [undefined], the
    response is 500 with the try-again message, whatever the action of the
    request. *)
Theorem undefined_result_is_a_server_error
    (query : Query) (n : nat) (sheetId : JsVal) (viewName : string) (q : Query)
    (pl : IPipeline) (datasets : list (DataSetProps Columns))
    (visuals : list (VisualProps VisualDef FilterControl ParameterDeclarations FilterGroup)) :
  let run := createAttributionAnalysisVisual query n in
  In (Call_createDashboardVisuals sheetId viewName q pl datasets visuals)
     (calls_of run) ->
  createDashboardVisuals sheetId viewName q pl datasets visuals = Fulfilled None ->
  outcome_of run
  = Responded (mkResponse 500
                 (ApiFail "Failed to create resources, please try again later.")).
Proof.
  intros run. subst run. isolate_run query n.
  explore query n; resume_run; intros Hin Hres; simpl in Hin.
  all: repeat destruct Hin as [Hin|Hin]; try contradiction; try discriminate Hin.
  all: injection Hin as <- <- <- <- <- <-.
  all: rewrite Hvisuals in Hres; try discriminate Hres; injection Hres as ->.
  all: reflexivity.
Qed.

(** X9.  A response with status 400 or 404 is sent before any SQL is built
    and before anything is asked of the visualization side: no builder
    call and no visualization call has been made. *)
Theorem client_errors_create_nothing (query : Query) (n : nat)
    (resp : Response CreateDashboardResult) :
  let run := createAttributionAnalysisVisual query n in
  outcome_of run = Responded resp ->
  status resp = 400 \/ status resp = 404 ->
  List.filter is_builder_call (calls_of run) = []
  /\ List.filter is_visualization_call (calls_of run) = [].
Proof.
  intros run. subst run. isolate_run query n.
  explore query n; resume_run; intros Hout Hstatus.
  all: try discriminate Hout; injection Hout as <-.
  all: try (destruct result as [r|]; [destruct (_ && _)|]); cbn [status] in Hstatus.
  all: try (destruct Hstatus; discriminate).
  all: split; reflexivity.
Qed.


End ServiceProperties.

(** ** Credit assignment *)

Section CreditProperties.

Import AttributionModel.
Local Open Scope Q_scope.

Lemma precedes_refl (a : EventRow) : precedes a a = true.
Proof.
  unfold precedes. rewrite Z.eqb_refl, Nat.leb_refl.
  destruct (event_timestamp a <? event_timestamp a)%Z; reflexivity.
Qed.

Lemma precedes_spec (a b : EventRow) :
  precedes a b = true
  <-> (event_timestamp a < event_timestamp b)%Z
      \/ (event_timestamp a = event_timestamp b /\ (row_id a <= row_id b)%nat).
Proof.
  unfold precedes.
  rewrite Bool.orb_true_iff, Bool.andb_true_iff, Z.ltb_lt, Z.eqb_eq, Nat.leb_le.
  reflexivity.
Qed.

Lemma precedes_total (a b : EventRow) : precedes a b = false -> precedes b a = true.
Proof.
  intros Hab. apply precedes_spec.
  destruct (precedes a b) eqn:E; [discriminate|].
  assert (Hn : ~ ((event_timestamp a < event_timestamp b)%Z
                  \/ (event_timestamp a = event_timestamp b
                      /\ (row_id a <= row_id b)%nat)))
    by (rewrite <- precedes_spec; congruence).
  lia.
Qed.

Lemma precedes_trans (a b c : EventRow) :
  precedes a b = true -> precedes b c = true -> precedes a c = true.
Proof. rewrite !precedes_spec. lia. Qed.

Lemma prefer_refl (d : Direction) (a : EventRow) : prefer d a a = true.
Proof. destruct d; apply precedes_refl. Qed.

Lemma prefer_total (d : Direction) (a b : EventRow) :
  prefer d a b = false -> prefer d b a = true.
Proof. destruct d; apply precedes_total. Qed.

Lemma prefer_trans (d : Direction) (a b c : EventRow) :
  prefer d a b = true -> prefer d b c = true -> prefer d a c = true.
Proof. destruct d; simpl; eauto using precedes_trans. Qed.

(** [pick] returns a row of the list that is preferred to every row of
    the list, and nothing only for the empty list. *)
Lemma pick_spec (d : Direction) (l : list EventRow) :
  match pick d l with
  | Some t => In t l /\ forall t', In t' l -> prefer d t t' = true
  | None => l = []
  end.
Proof.
  induction l as [|x l IH]; simpl; [reflexivity|].
  destruct (pick d l) as [y|].
  - destruct IH as [Hy Hbest].
    destruct (prefer d x y) eqn:Hxy.
    + split; [left; reflexivity|].
      intros t' [<-|Ht']; [apply prefer_refl|].
      eapply prefer_trans; [exact Hxy | apply Hbest, Ht'].
    + split; [right; exact Hy|].
      intros t' [<-|Ht']; [apply prefer_total, Hxy | apply Hbest, Ht'].
  - subst l. split; [left; reflexivity|].
    intros t' [<-|[]]. apply prefer_refl.
Qed.

Lemma prefer_timestamps (d : Direction) (a b : EventRow) :
  prefer d a b = true ->
  match d with
  | FirstTouch => (event_timestamp a <= event_timestamp b)%Z
  | LastTouch => (event_timestamp b <= event_timestamp a)%Z
  end.
Proof. destruct d; simpl; rewrite precedes_spec; lia. Qed.

Lemma qualifying_spec (s : Scope) (rows : list EventRow) (c t : EventRow) :
  In t (qualifying s rows c)
  <-> In t rows /\ is_touch s t = true
      /\ user_pseudo_id t = user_pseudo_id c
      /\ (event_timestamp t < event_timestamp c)%Z.
Proof.
  unfold qualifying. rewrite List.filter_In, !Bool.andb_true_iff, String.eqb_eq, Z.ltb_lt.
  tauto.
Qed.

(** *** Sums of credits *)

Lemma sumQ_app (l1 l2 : list Q) : sumQ (l1 ++ l2) == sumQ l1 + sumQ l2.
Proof.
  induction l1 as [|x l1 IH]; simpl.
  - ring.
  - rewrite IH. ring.
Qed.

Lemma contribution_of_cons (k : Credit) (credits : list Credit) (name : string) :
  contribution_of (k :: credits) name
  == (if String.eqb (event_name (touch k)) name then credit k else 0)
     + contribution_of credits name.
Proof.
  unfold contribution_of. simpl.
  destruct (String.eqb (event_name (touch k)) name); simpl; ring.
Qed.

(** Over names without duplicates, the indicator of one of them sums to
    its value. *)
Lemma sumQ_indicator (key : string) (x : Q) (names : list string) :
  NoDup names -> In key names ->
  sumQ (List.map (fun name => if String.eqb key name then x else 0) names) == x.
Proof.
  induction 1 as [|name names Hnotin Hnodup IH]; intros Hin; [destruct Hin|].
  simpl. destruct (String.eqb_spec key name) as [->|Hne].
  - assert (Hz : sumQ (List.map (fun n0 => if String.eqb name n0 then x else 0) names) == 0).
    { clear IH Hin Hnodup. induction names as [|n0 names IH]; simpl; [reflexivity|].
      destruct (String.eqb_spec name n0) as [->|_].
      - exfalso. apply Hnotin. left.
      - rewrite IH; [ring|]. intros Hn. apply Hnotin. right. exact Hn. }
    rewrite Hz. ring.
  - destruct Hin as [->|Hin]; [contradiction Hne; reflexivity|].
    rewrite IH; [ring | exact Hin].
Qed.

(** Grouping by touch-point name loses no credit. *)
Lemma grouped_credit_total (credits : list Credit) (names : list string) :
  NoDup names ->
  (forall k, In k credits -> In (event_name (touch k)) names) ->
  sumQ (List.map (contribution_of credits) names) == sumQ (List.map credit credits).
Proof.
  intros Hnodup. induction credits as [|k credits IH]; intros Hall.
  - simpl. clear Hall Hnodup. induction names as [|n0 names IH]; simpl; [reflexivity|].
    rewrite IH. unfold contribution_of. simpl. ring.
  - assert (Hsplit :
        sumQ (List.map (contribution_of (k :: credits)) names)
        == sumQ (List.map (fun name =>
                   if String.eqb (event_name (touch k)) name then credit k else 0) names)
           + sumQ (List.map (contribution_of credits) names)).
    { clear. induction names as [|n0 names IH]; simpl; [ring|].
      rewrite IH, contribution_of_cons. ring. }
    rewrite Hsplit, sumQ_indicator, IH; simpl.
    + reflexivity.
    + intros k' Hk'. apply Hall. right. exact Hk'.
    + exact Hnodup.
    + apply Hall. left. reflexivity.
Qed.

Lemma contributions_total (credits : list Credit) :
  sumQ (List.map snd (contributions credits)) == sumQ (List.map credit credits).
Proof.
  unfold contributions. rewrite List.map_map. simpl.
  apply grouped_credit_total.
  - apply NoDup_remove_dups.
  - intros k Hk. unfold touch_point_groups.
    apply list_elem_of_In, elem_of_remove_dups, list_elem_of_In.
    apply List.in_map with (f := fun k => event_name (touch k)). exact Hk.
Qed.

(** The credit rows of the single-point model, conversion by conversion. *)
Lemma single_point_credits_shape (d : Direction) (s : Scope) (rows cs : list EventRow) :
  let credits :=
    List.flat_map
      (fun c => match selected_touch d s rows c with
                | Some t => [mkCredit c t 1]
                | None => []
                end) cs in
  List.map conversion credits
  = List.filter
      (fun c => match qualifying s rows c with [] => false | _ => true end) cs
  /\ sumQ (List.map credit credits) == inject_Z (Z.of_nat (length credits))
  /\ forall k, In k credits ->
       credit k = 1 /\ In (conversion k) cs
       /\ selected_touch d s rows (conversion k) = Some (touch k).
Proof.
  induction cs as [|c cs IH]; simpl.
  - split; [reflexivity|]. split; [reflexivity|]. intros k [].
  - destruct IH as (IHmap & IHsum & IHall).
    pose proof (pick_spec d (qualifying s rows c)) as Hpick.
    fold (selected_touch d s rows c) in Hpick.
    destruct (selected_touch d s rows c) as [t|] eqn:Hsel.
    + destruct Hpick as [Hin _].
      destruct (qualifying s rows c) as [|q0 qs] eqn:Hq; [destruct Hin|].
      simpl. split; [f_equal; exact IHmap|]. split.
      * rewrite IHsum, Nat2Z.inj_succ, <- Z.add_1_r, inject_Z_plus. ring.
      * intros k [<-|Hk].
        -- simpl. split; [reflexivity|]. split; [left; reflexivity|]. exact Hsel.
        -- destruct (IHall k Hk) as (H1 & H2 & H3). auto.
    + rewrite Hpick. simpl. split; [exact IHmap|]. split; [exact IHsum|].
      intros k Hk. destruct (IHall k Hk) as (H1 & H2 & H3). auto.
Qed.

(** C2.  In the single-point model every conversion of the window with a
    qualifying touch is credited to exactly one touch event: a touch of
    the same user strictly before the conversion, the earliest of the
    qualifying touches for first-touch and the latest for last-touch; a
    conversion without qualifying touch is credited to none.  The credit
    is 1 (100%), so the contributions summed over the touch points equal
    the number of conversions that have a qualifying touch. *)
Theorem single_point_gives_full_credit_to_one_touch
    (d : Direction) (s : Scope) (rows : list EventRow) :
  let credits := single_point_credits d s rows in
  (forall c, In c (conversions s rows) ->
     match selected_touch d s rows c with
     | Some t =>
         In t (qualifying s rows c)
         /\ user_pseudo_id t = user_pseudo_id c
         /\ (event_timestamp t < event_timestamp c)%Z
         /\ forall t', In t' (qualifying s rows c) ->
              match d with
              | FirstTouch => (event_timestamp t <= event_timestamp t')%Z
              | LastTouch => (event_timestamp t' <= event_timestamp t)%Z
              end
     | None => qualifying s rows c = []
     end)
  /\ List.map conversion credits = attributed_conversions s rows
  /\ (forall k, In k credits ->
        credit k = 1
        /\ selected_touch d s rows (conversion k) = Some (touch k))
  /\ sumQ (List.map snd (contributions credits))
     == inject_Z (Z.of_nat (length (attributed_conversions s rows))).
Proof.
  intros credits.
  destruct (single_point_credits_shape d s rows (conversions s rows))
    as (Hmap & Hsum & Hall).
  fold (single_point_credits d s rows) in Hmap, Hsum, Hall. fold credits in Hmap, Hsum, Hall.
  fold (attributed_conversions s rows) in Hmap.
  split; [|split; [exact Hmap|split]].
  - intros c _. unfold selected_touch.
    pose proof (pick_spec d (qualifying s rows c)) as Hpick.
    destruct (pick d (qualifying s rows c)) as [t|]; [|exact Hpick].
    destruct Hpick as [Hin Hbest].
    pose proof (proj1 (qualifying_spec s rows c t) Hin) as (_ & _ & Huser & Hbefore).
    repeat split; try assumption.
    intros t' Ht'. apply prefer_timestamps, Hbest, Ht'.
  - intros k Hk. destruct (Hall k Hk) as (H1 & _ & H3). split; assumption.
  - rewrite contributions_total, Hsum, <- Hmap, List.length_map. reflexivity.
Qed.

(** *** The position-based split *)

Lemma imap_const_credit {A} (f : nat -> Q) (x : Q) (l : list A) (j : nat) :
  (forall i, (i < length l)%nat -> f (j + i)%nat = x) ->
  imap (fun i t => (t, f (j + i)%nat)) l = List.map (fun t => (t, x)) l.
Proof.
  revert j. induction l as [|a l IH]; intros j Hf; simpl; [reflexivity|].
  f_equal.
  - rewrite Hf by (simpl; lia). reflexivity.
  - rewrite <- (IH (S j)).
    + apply imap_ext. intros i t _. simpl. f_equal. f_equal. lia.
    + intros i Hi. rewrite <- Hf with (i := S i) by (simpl; lia). f_equal. lia.
Qed.

Lemma sumQ_equal_shares {A} (x : Q) (l : list A) :
  sumQ (List.map snd (List.map (fun t => (t, x)) l))
  == inject_Z (Z.of_nat (length l)) * x.
Proof.
  induction l as [|a l IH]; simpl sumQ.
  - simpl. ring.
  - simpl length. rewrite IH, Nat2Z.inj_succ, <- Z.add_1_r, inject_Z_plus. simpl. ring.
Qed.

Lemma position_credit_many (n i : nat) :
  (3 <= n)%nat ->
  position_credit n i
  = if (i =? 1)%nat then 2 # 5
    else if (i =? n)%nat then 2 # 5
    else (1 # 5) / inject_Z (Z.of_nat (n - 2)).
Proof. destruct n as [|[|[|n]]]; try lia. reflexivity. Qed.

(** C3.  In the position-based model the credits of the qualifying touches
    of a user-conversion pair are: for a single touch, 1; for two touches,
    1/2 each; for three or more, 2/5 for the first, 2/5 for the last, and
    for each touch between them the same share, the shares adding up to
    1/5. *)
Theorem position_based_credit_split {A : Type} (touches : list A) :
  (forall t, touches = [t] -> position_credits touches = [(t, 1)])
  /\ (forall a b, touches = [a; b] ->
        position_credits touches = [(a, 1 # 2); (b, 1 # 2)])
  /\ (forall first middle last,
        touches = first :: middle ++ [last] -> middle <> [] ->
        let share := (1 # 5) / inject_Z (Z.of_nat (length middle)) in
        position_credits touches
        = (first, 2 # 5) :: List.map (fun t => (t, share)) middle ++ [(last, 2 # 5)]
        /\ sumQ (List.map snd (List.map (fun t => (t, share)) middle)) == 1 # 5).
Proof.
  split; [|split].
  - intros t ->. reflexivity.
  - intros a b ->. reflexivity.
  - intros first middle last -> Hmid share.
    assert (Hlen : (1 <= length middle)%nat)
      by (destruct middle; [contradiction Hmid; reflexivity | simpl; lia]).
    split.
    + unfold position_credits.
      assert (HN : length (first :: middle ++ [last]) = S (S (length middle)))
        by (rewrite length_cons, length_app; simpl; lia).
      rewrite HN. set (n := S (S (length middle))).
      assert (Hn3 : (3 <= n)%nat) by (unfold n; lia).
      rewrite imap_cons, imap_app. unfold compose.
      rewrite position_credit_many by exact Hn3. cbn [Nat.eqb]. f_equal. f_equal.
      * apply (imap_const_credit (position_credit n) share middle 2).
        intros i Hi. rewrite position_credit_many by exact Hn3.
        destruct (Nat.eqb_spec (2 + i) 1); [lia|].
        destruct (Nat.eqb_spec (2 + i) n); [unfold n in *; lia|].
        unfold share, n. do 3 f_equal. lia.
      * cbn [imap]. rewrite position_credit_many by exact Hn3.
        replace (S (S (length middle + 0))) with n by (unfold n; lia).
        rewrite Nat.eqb_refl.
        destruct (n =? 1)%nat; reflexivity.
    + rewrite sumQ_equal_shares. unfold share. field.
      intros Hz. unfold Qeq in Hz. simpl in Hz. lia.
Qed.

End CreditProperties.

(** ** The properties at work on the concrete deployment *)

Section Witnesses.

Import Scenario.

Lemma invalid_request_witness :
  success (checkAttributionAnalysisParameter request_without_project) = false
  /\ createAttributionAnalysisVisual request_without_project 0
     = (Responded (mkResponse 400 (ApiFail "Missing required parameter.")),
        [Call_checkAttributionAnalysisParameter request_without_project],
        0%nat).
Proof.
  assert (Hc : success (checkAttributionAnalysisParameter request_without_project)
               = false) by reflexivity.
  split; [exact Hc|].
  rewrite (invalid_request_is_rejected_without_side_effects
             request_without_project 0 Hc).
  reflexivity.
Defined.

Lemma unknown_project_witness :
  success (checkAttributionAnalysisParameter request_unknown_project) = true
  /\ getPipelineByProjectId (get request_unknown_project "projectId") = Fulfilled None
  /\ outcome_of (createAttributionAnalysisVisual request_unknown_project 0)
     = Responded (mkResponse 404 (ApiFail "Pipeline not found")).
Proof.
  assert (Hc : success (checkAttributionAnalysisParameter request_unknown_project)
               = true) by reflexivity.
  assert (Hp : getPipelineByProjectId (get request_unknown_project "projectId")
               = Fulfilled None) by reflexivity.
  split; [exact Hc|]. split; [exact Hp|].
  exact (proj1 (unknown_project_is_not_found request_unknown_project 0 Hc Hp)).
Defined.

Lemma dispatch_witness :
  let q := encodedQuery request_existing_sheet pipeline in
  success (checkAttributionAnalysisParameter request_existing_sheet) = true
  /\ getPipelineByProjectId (get request_existing_sheet "projectId")
     = Fulfilled (Some pipeline)
  /\ (truthy (get q "dashboardId") = true -> truthy (get q "sheetId") = true)
  /\ List.filter is_builder_call
       (calls_of (createAttributionAnalysisVisual request_existing_sheet 0))
     = [Call_buildSQLForSinglePointModel (sqlParameters q)].
Proof.
  intros q.
  assert (Hc : success (checkAttributionAnalysisParameter request_existing_sheet) = true)
    by reflexivity.
  assert (Hp : getPipelineByProjectId (get request_existing_sheet "projectId")
               = Fulfilled (Some pipeline)) by reflexivity.
  assert (Hg : truthy (get q "dashboardId") = true -> truthy (get q "sheetId") = true)
    by (intros _; reflexivity).
  assert (Hm : loose_eq_name (get q "modelType") AttributionModelType.LAST_TOUCH = true)
    by reflexivity.
  split; [exact Hc|]. split; [exact Hp|]. split; [exact Hg|].
  exact (proj1 (dispatch_on_model_type request_existing_sheet 0 pipeline Hc Hp Hg)
           (or_intror Hm)).
Defined.

Lemma empty_embed_url_witness :
  let q := encodedQuery request_not_ready pipeline in
  let sheetId := JStr (uuid_of 0) in
  let datasets :=
    [ mkDataSetProps "_tmp_view" tt "DIRECT_QUERY" "select 'single-point'"
        [ "Trigger Count"; "Touch Point Name"; "Number of Total Conversion";
          "Number of Triggers with Conversion"; "Contribution(number/sum...value)";
          "Contribution Rate" ] ] in
  let visuals := [ mkVisualProps sheetId "CHART" (uuid_of 1) "_tmp_view" [] tt tt tt ] in
  In (Call_createDashboardVisuals sheetId "_tmp_view" q pipeline datasets visuals)
     (calls_of (createAttributionAnalysisVisual request_not_ready 0))
  /\ createDashboardVisuals sheetId "_tmp_view" q pipeline datasets visuals
     = Fulfilled (Some "")
  /\ exists resp,
       outcome_of (createAttributionAnalysisVisual request_not_ready 0) = Responded resp
       /\ status resp = 500.
Proof.
  intros q sheetId datasets visuals.
  assert (Hin : In (Call_createDashboardVisuals sheetId "_tmp_view" q pipeline
                      datasets visuals)
                   (calls_of (createAttributionAnalysisVisual request_not_ready 0)))
    by (apply (List.nth_error_In _ 11); reflexivity).
  assert (Hres : createDashboardVisuals sheetId "_tmp_view" q pipeline datasets visuals
                 = Fulfilled (Some "")) by reflexivity.
  split; [exact Hin|]. split; [exact Hres|].
  destruct (empty_embed_url_fails_previews_only request_not_ready 0 sheetId "_tmp_view"
              q pipeline datasets visuals "" Hin Hres) as (_ & resp & Hout & H500 & _).
  exists resp. split; [exact Hout|].
  apply (H500 eq_refl). reflexivity.
Defined.

Lemma sheet_id_witness :
  let q := encodedQuery request pipeline in
  success (checkAttributionAnalysisParameter request) = true
  /\ getPipelineByProjectId (get request "projectId") = Fulfilled (Some pipeline)
  /\ truthy (get q "dashboardId") = false
  /\ resolveSheetId q 0%nat = (Normal (JStr (uuid_of 0)), [Call_uuidv4 0], 1%nat)
  /\ Forall (uses_sheetId (JStr (uuid_of 0)))
       (calls_of (createAttributionAnalysisVisual request 0)).
Proof.
  intros q.
  assert (Hc : success (checkAttributionAnalysisParameter request) = true)
    by reflexivity.
  assert (Hp : getPipelineByProjectId (get request "projectId")
               = Fulfilled (Some pipeline)) by reflexivity.
  assert (Hd : truthy (get q "dashboardId") = false) by reflexivity.
  split; [exact Hc|]. split; [exact Hp|]. split; [exact Hd|].
  destruct (sheet_id_resolution request 0 pipeline Hc Hp) as (Hfresh & _ & _).
  destruct (Hfresh Hd) as (Hsheet & _ & _ & Hall).
  split; [exact Hsheet | exact Hall].
Defined.

Lemma encoder_witness :
  List.filter is_builder_call (calls_of (createAttributionAnalysisVisual request 0)) <> []
  /\ length (List.filter is_encoder_call
               (calls_of (createAttributionAnalysisVisual request 0))) = 1%nat.
Proof.
  assert (Hb : List.filter is_builder_call
                 (calls_of (createAttributionAnalysisVisual request 0))
               = [Call_buildSQLForSinglePointModel
                    (sqlParameters (encodedQuery request pipeline))])
    by reflexivity.
  assert (Hne : List.filter is_builder_call
                  (calls_of (createAttributionAnalysisVisual request 0)) <> [])
    by (rewrite Hb; discriminate).
  split; [exact Hne|].
  destruct (encoder_runs_once_before_the_builder request 0 Hne)
    as (pl & between & builder & after & _ & _ & _ & _ & _ & _ & _ & Hone).
  exact Hone.
Defined.

Lemma builder_parameters_witness :
  let q := encodedQuery request pipeline in
  let e := Call_buildSQLForSinglePointModel (sqlParameters q) in
  In e (calls_of (createAttributionAnalysisVisual request 0))
  /\ builder_params e = Some (sqlParameters q)
  /\ exists pl,
       getPipelineByProjectId (get request "projectId") = Fulfilled (Some pl)
       /\ sqlParameters q !! "schemaName" = Some (get (encodedQuery request pl) "appId")
       /\ sqlParameters q !! "dbName" = Some (get (encodedQuery request pl) "projectId").
Proof.
  intros q e.
  assert (Hin : In e (calls_of (createAttributionAnalysisVisual request 0)))
    by (apply (List.nth_error_In _ 5); reflexivity).
  assert (Hb : builder_params e = Some (sqlParameters q)) by reflexivity.
  split; [exact Hin|]. split; [exact Hb|].
  destruct (builders_receive_schema_and_db request 0 e (sqlParameters q) Hin Hb)
    as (pl & Hp & Hschema & Hdb & _).
  exists pl. split; [exact Hp|]. split; [exact Hschema | exact Hdb].
Defined.

Lemma locale_witness :
  let props :=
    mkVisualRelatedDefParams (JStr "FIXED") (JStr (uuid_of 0)) (uuid_of 1) "_tmp_view"
      JUndefined JUndefined (JStr "2024-01-01") (JStr "2024-01-31") in
  In (Call_getVisualRelatedDefs props (JStr "en-US"))
     (calls_of (createAttributionAnalysisVisual request 0))
  /\ exists pl,
       getPipelineByProjectId (get request "projectId") = Fulfilled (Some pl)
       /\ (get (encodedQuery request pl) "locale" = JUndefined
           \/ get (encodedQuery request pl) "locale" = JNull ->
           JStr "en-US" = JStr EN_US).
Proof.
  intros props.
  assert (Hin : In (Call_getVisualRelatedDefs props (JStr "en-US"))
                   (calls_of (createAttributionAnalysisVisual request 0)))
    by (apply (List.nth_error_In _ 10); reflexivity).
  split; [exact Hin|].
  destruct (proj1 (locale_and_chart_type_defaults request 0) props (JStr "en-US") Hin)
    as (pl & Hp & Habsent & _).
  exists pl. split; [exact Hp | exact Habsent].
Defined.

Lemma single_point_witness :
  (AttributionModel.sumQ
     (List.map snd
        (AttributionModel.contributions
           (AttributionModel.single_point_credits AttributionModel.LastTouch
              scope rows)))
   == 1)%Q.
Proof.
  exact (proj2 (proj2 (proj2
    (single_point_gives_full_credit_to_one_touch AttributionModel.LastTouch scope rows)))).
Defined.

Lemma position_witness :
  AttributionModel.position_credits ["ad"; "mail"; "search"; "visit"]
  = [ ("ad", 2 # 5); ("mail", (1 # 5) / inject_Z 2);
      ("search", (1 # 5) / inject_Z 2); ("visit", 2 # 5) ]%Q
  /\ (AttributionModel.sumQ [ (1 # 5) / inject_Z 2; (1 # 5) / inject_Z 2 ] == 1 # 5)%Q.
Proof.
  assert (Hmid : ["mail"; "search"] <> ([] : list string)) by discriminate.
  exact (proj2 (proj2 (position_based_credit_split ["ad"; "mail"; "search"; "visit"]))
           "ad" ["mail"; "search"] "visit" eq_refl Hmid).
Defined.

(** The end-to-end scenario of the specification: a LAST_TOUCH preview for
    project [p1] is answered with 201 and a non-empty dashboard handle. *)
Example scenario_runs :
  outcome_of (createAttributionAnalysisVisual request 0)
  = Responded (mkResponse 201 (ApiSuccess "https://quicksight/embed")).
Proof. reflexivity. Qed.

(** An unsupported model type is answered with 400 after validation, pipeline
    lookup, timezone lookup, encoding and the draw of a sheet identifier. *)
Example unknown_model_type_runs :
  createAttributionAnalysisVisual request_unknown_model 0
  = (Responded (mkResponse 400 (ApiFail "Invalid attribution analysis model type")),
     [ Call_checkAttributionAnalysisParameter request_unknown_model;
       Call_getPipelineByProjectId (JStr "p1");
       Call_getTimezoneByAppId pipeline (JStr "a1");
       Call_encodeAttributionQueryValueForSql
         (<["timezone" := JStr "+00:00"]> request_unknown_model);
       Call_uuidv4 0 ],
     1%nat).
Proof. reflexivity. Qed.

(** First touch and last touch on the small event store. *)
Example first_touch_selected :
  AttributionModel.selected_touch AttributionModel.FirstTouch scope rows
    (AttributionModel.mkRow "u1" 30 "purchase" 3)
  = Some (AttributionModel.mkRow "u1" 10 "view_item" 1).
Proof. reflexivity. Qed.

Example last_touch_selected :
  AttributionModel.selected_touch AttributionModel.LastTouch scope rows
    (AttributionModel.mkRow "u1" 30 "purchase" 3)
  = Some (AttributionModel.mkRow "u1" 20 "view_item" 2).
Proof. reflexivity. Qed.

End Witnesses.

(** ** The refresh lambda *)

Section RefreshProperties.

Import RefreshBasicView.

Lemma append_inv_head (p s t : string) : p +:+ s = p +:+ t -> s = t.
Proof.
  induction p as [|c p IH]; simpl; intros E; [exact E|].
  injection E as E. exact (IH E).
Qed.

Lemma append_inv_tail (s t : string) (c : ascii) :
  s +:+ String c "" = t +:+ String c "" -> s = t.
Proof.
  revert t. induction s as [|a s IH]; intros [|b t]; simpl; intros E.
  - reflexivity.
  - injection E as _ E. destruct t; discriminate E.
  - injection E as _ E. destruct s; discriminate E.
  - injection E as -> E. f_equal. exact (IH t E).
Qed.

(** Two dot-free strings followed by a dot and more text agree when the
    whole texts agree. *)
Lemma dot_separates (a a' r r' : string) :
  dot_free a = true -> dot_free a' = true ->
  a +:+ "." +:+ r = a' +:+ "." +:+ r' -> a = a' /\ r = r'.
Proof.
  revert a'. induction a as [|c a IH]; intros [|c' a']; simpl; intros Ha Ha' E.
  - injection E as E. split; [reflexivity | exact E].
  - injection E as <- _. simpl in Ha'. discriminate Ha'.
  - injection E as -> _. simpl in Ha. discriminate Ha.
  - injection E as -> E.
    apply Bool.andb_true_iff in Ha as [_ Ha].
    apply Bool.andb_true_iff in Ha' as [_ Ha'].
    destruct (IH a' Ha Ha' E) as [-> ->]. split; reflexivity.
Qed.

(** X10.  The refresh lambda submits exactly one statement, and for
    application identifiers without a dot that statement identifies its
    target: two events that submit the same statements name the same
    application and the same view. *)
Theorem refresh_statement_identifies_the_view (e1 e2 : RefreshBasicViewEvent) :
  dot_free (appId (timezoneWithAppId e1)) = true ->
  dot_free (appId (timezoneWithAppId e2)) = true ->
  sqlStatements e1 = sqlStatements e2 ->
  length (sqlStatements e1) = 1%nat
  /\ appId (timezoneWithAppId e1) = appId (timezoneWithAppId e2)
  /\ viewName e1 = viewName e2.
Proof.
  intros H1 H2 E. split; [reflexivity|].
  unfold sqlStatements in E. simpl app in E. injection E as E.
  apply append_inv_head in E.
  destruct (dot_separates _ _ _ _ H1 H2 E) as [Happ Hrest].
  split; [exact Happ|]. exact (append_inv_tail _ _ _ Hrest).
Qed.

(** The refresh lambda calls [executeStatements] on its single
    statement and settles as that call does: its rejection is passed on
    unchanged, and its query identifier is returned together with the
    view name and the [timezoneWithAppId] of the event, both unchanged. *)
Lemma refresh_handler_settles_as_the_statement
    {QueryId Err Client ServerlessProps ProvisionedProps : Type}
    (client : Client) (serverless : ServerlessProps) (provisioned : ProvisionedProps)
    (executeStatements :
       Client -> list string -> ServerlessProps -> ProvisionedProps ->
       Settled Err QueryId)
    (event : RefreshBasicViewEvent) :
  let submitted :=
    executeStatements client
      [ "REFRESH MATERIALIZED VIEW "
        +:+ appId (timezoneWithAppId event) +:+ "." +:+ viewName event +:+ ";" ]
      serverless provisioned in
  (forall err, submitted = Rejected err ->
     handler client serverless provisioned executeStatements event = Rejected err)
  /\ (forall id, submitted = Fulfilled id ->
        exists result,
          handler client serverless provisioned executeStatements event
          = Fulfilled result
          /\ queryId result = id
          /\ resultViewName result = viewName event
          /\ resultTimezoneWithAppId result = timezoneWithAppId event).
Proof.
  intros submitted. subst submitted. unfold handler, sqlStatements. simpl app.
  split.
  - intros err ->. reflexivity.
  - intros id ->. eexists. repeat split.
Qed.

End RefreshProperties.

(** ** Event items *)

Section ItemProperties.

Import SensorsItem.

Context {Object Double : Type}.

(** X11.  After any sequence of setter and [setUnknownProperty] calls on an
    item, [getUnknownProperties] maps a name to the value of the last
    [setUnknownProperty] call for that name, and otherwise to what it held
    before; [itemId] is the argument of the last [setItemId] call, and
    otherwise what it was.  So the declared fields and the unknown
    properties never touch each other, whatever the names used. *)
Theorem item_calls_last_write_wins
    (cs : list (ItemCall Object Double)) (i : Item Object Double)
    (name : option string) :
  getUnknownProperties (performAll cs i) !! name
  = match last_unknown name cs with
    | Some v => Some v
    | None => getUnknownProperties i !! name
    end
  /\ itemId (performAll cs i)
     = match last_itemId cs with
       | Some v => v
       | None => itemId i
       end.
Proof.
  revert i. induction cs as [|c cs IH]; intros i; simpl; [split; reflexivity|].
  destruct (IH (perform c i)) as [IHu IHi]. rewrite IHu, IHi.
  split.
  - destruct (last_unknown name cs); [reflexivity|].
    destruct c; simpl; try reflexivity.
    unfold getUnknownProperties. simpl.
    destruct (decide (name0 = name)) as [->|Hne].
    + apply lookup_insert_eq.
    + apply lookup_insert_ne. exact Hne.
  - destruct (last_itemId cs); [reflexivity|].
    destruct c; reflexivity.
Qed.

End ItemProperties.

(** ** The control plane *)

Section ControlPlaneProperties.

Import ControlPlane.

Context `{Cdk}.

Local Opaque apiEnvironment authorizerEnvironment.

Ltac run_construct :=
  unfold ClickStreamApiConstruct, andThen, step, done, fail; simpl.

(** X12.  The constructor of the API construct fails in two cases only:
    fronting [alb] without load-balancer properties, and fronting
    [cloudfront] without API gateway properties.  In the first case it
    fails after the two tables were created and before the function is; in
    the second it fails after the function was created. *)
Theorem api_construct_fails_without_its_fronting_properties
    (props : ClickStreamApiProps) :
  match ClickStreamApiConstruct props with
  | (Failed message, steps) =>
      (fronting props = alb /\ applicationLoadBalancer props = None
       /\ message = "Application Load Balancer fronting backend api must be have applicationLoadBalancer parameters."
       /\ length (List.filter creates_table steps) = 2%nat
       /\ List.filter creates_function steps = [])
      \/ (fronting props = cloudfront /\ apiGateway props = None
          /\ message = "Cloudfront fronting backend api must be have Api Gateway parameters."
          /\ length (List.filter creates_function steps) = 1%nat)
  | (Done _, _) =>
      (fronting props = alb -> applicationLoadBalancer props <> None)
      /\ (fronting props = cloudfront -> apiGateway props <> None)
  end.
Proof.
  destruct props as [[|] items [lb|] [gw|] cn region]; run_construct.
  all: try (split; intros; congruence).
  - left. repeat split.
  - left. repeat split.
  - right. repeat split.
  - right. repeat split.
Qed.

(** X13.  When the constructor of the API construct succeeds, the
    construct has a REST API exactly for fronting [cloudfront], made with
    the stage name and the authorizer of the gateway properties; its
    function is placed in a VPC exactly for fronting [alb]; and the
    functions of the stack-action state machine got the same VPC
    properties as the API function. *)
Theorem rest_api_only_behind_cloudfront
    (props : ClickStreamApiProps) (c : ClickStreamApi) (steps : list Step) :
  ClickStreamApiConstruct props = (Done c, steps) ->
  (is_Some (lambdaRestApi c) <-> fronting props = cloudfront)
  /\ (is_Some (functionVpcProps c) <-> fronting props = alb)
  /\ (forall api, lambdaRestApi c = Some api ->
        exists gateway,
          apiGateway props = Some gateway
          /\ api = mkRestApi (stageName gateway) (authorizer gateway))
  /\ In (NewStackActionStateMachine "StackActionStateMachine" "ClickstreamMetadata"
           (functionVpcProps c) (default false (targetToCNRegions props)))
        steps.
Proof.
  destruct props as [[|] items [lb|] [gw|] cn region]; run_construct; intros E.
  all: try discriminate E; injection E as <- <-; simpl.
  all: repeat split; intros; try congruence; eauto.
  all: try (match goal with Hs : is_Some None |- _ => destruct Hs; discriminate end).
  all: try (simpl; tauto).
  all: match goal with
       | E' : Some _ = Some ?api |- exists g, Some ?gw = Some g /\ _ =>
           exists gw; split; [reflexivity | congruence]
       end.
Qed.

(** X14.  The API construct never reads [dictionaryItems], reads the
    load-balancer properties only for fronting [alb] and the API gateway
    properties only for fronting [cloudfront]: properties that agree on
    everything else build the same construct by the same steps. *)
Theorem unused_properties_do_not_matter (props props' : ClickStreamApiProps) :
  fronting props = fronting props' ->
  targetToCNRegions props = targetToCNRegions props' ->
  s3MainRegion props = s3MainRegion props' ->
  (fronting props = alb ->
   applicationLoadBalancer props = applicationLoadBalancer props') ->
  (fronting props = cloudfront -> apiGateway props = apiGateway props') ->
  ClickStreamApiConstruct props = ClickStreamApiConstruct props'.
Proof.
  destruct props as [f items lb gw cn region].
  destruct props' as [f' items' lb' gw' cn' region'].
  simpl. intros <- <- <- Hlb Hgw.
  assert (Henv : apiEnvironment (mkClickStreamApiProps f items lb gw cn region)
                 = apiEnvironment (mkClickStreamApiProps f items' lb' gw' cn region))
    by reflexivity.
  unfold ClickStreamApiConstruct. simpl fronting. simpl applicationLoadBalancer.
  simpl apiGateway. simpl targetToCNRegions. rewrite Henv.
  destruct f.
  - rewrite (Hlb eq_refl). reflexivity.
  - rewrite (Hgw eq_refl). reflexivity.
Qed.

Local Transparent apiEnvironment authorizerEnvironment.

(** X15.  The environment of the API function: a key of [POWERTOOLS_ENVS]
    always carries the value it has there, since that object is spread
    last; unless it defines the key itself, [S3_MAIN_REGION] is the
    [s3MainRegion] of the properties, or [us-east-1] when that is left
    out. *)
Theorem api_function_environment (props : ClickStreamApiProps) :
  (forall k v, POWERTOOLS_ENVS !! k = Some v -> apiEnvironment props !! k = Some v)
  /\ (POWERTOOLS_ENVS !! "S3_MAIN_REGION" = None ->
      apiEnvironment props !! "S3_MAIN_REGION"
      = Some (match s3MainRegion props with
              | Some region => region
              | None => "us-east-1"
              end)).
Proof.
  unfold apiEnvironment. split.
  - intros k v Hk. apply lookup_union_Some_l. exact Hk.
  - intros Hnone. rewrite lookup_union_r by exact Hnone.
    destruct (s3MainRegion props); reflexivity.
Qed.

Local Opaque apiEnvironment authorizerEnvironment.

Ltac run_stack :=
  unfold CloudFrontControlPlaneStack, controlPlaneApiProps, construct,
    ClickStreamApiConstruct, next, emit, update, ready, abort, readBook,
    andThen, step, done, fail, optional, is_true;
  simpl.

Ltac each_stack_props props :=
  destruct props as [[[[|]|] [[|]|] [[|]|]]|].

(** X16.  The constructor of the control-plane stack always completes:
    the API construct it makes, with fronting [cloudfront] and its own
    authorizer, has a REST API, so that [Backend api create error.] is
    never thrown. *)
Theorem control_plane_stack_is_always_built
    (props : option CloudFrontControlPlaneStackProps) (book : ParamBook) :
  exists steps book',
    CloudFrontControlPlaneStack props book = (Done tt, steps, book')
    /\ In (NewLambdaRestApi "ClickStreamApi" "ClickStreamApiFunction" "api"
             jwtAuthorizer) steps.
Proof.
  each_stack_props props; run_stack.
  all: do 2 eexists; split; [reflexivity|].
  all: simpl; repeat (first [left; reflexivity | right]).
Qed.

(** X17.  For CN regions the stack does not look at [useCustomDomainName]
    and [useExistingOIDCProvider]: two property objects that both target
    CN regions build the same stack by the same steps. *)
Theorem cn_regions_ignore_the_other_flags
    (props props' : option CloudFrontControlPlaneStackProps) (book : ParamBook) :
  optional props sp_targetToCNRegions = Some true ->
  optional props' sp_targetToCNRegions = Some true ->
  CloudFrontControlPlaneStack props book = CloudFrontControlPlaneStack props' book.
Proof.
  each_stack_props props; each_stack_props props'; simpl; intros H1 H2.
  all: try discriminate H1; try discriminate H2.
  all: reflexivity.
Qed.

(** X18.  Whatever the properties, the issuer the authorizer function
    checks tokens against and the OIDC provider published to the portal in
    [aws-exports.json] are the same, provided [POWERTOOLS_ENVS] does not
    define [ISSUER] itself: Cognito's issuer when the stack creates the
    user pool, the OIDC provider parameter otherwise. *)
Theorem authorizer_and_portal_share_the_issuer
    (props : option CloudFrontControlPlaneStackProps) (book : ParamBook) :
  POWERTOOLS_ENVS !! "ISSUER" = None ->
  let steps := snd (fst (CloudFrontControlPlaneStack props book)) in
  let issuer :=
    if negb (is_true (optional props sp_useExistingOIDCProvider))
       && negb (is_true (optional props sp_targetToCNRegions))
    then cognitoIssuer else valueAsString oidcProvider in
  omap issuer_of_authorizer steps = [Some issuer]
  /\ omap issuer_of_portal steps = [issuer].
Proof.
  intros Hnone steps issuer. subst steps issuer.
  assert (Henv : forall i, authorizerEnvironment i !! "ISSUER" = Some i).
  { intros i. Local Transparent authorizerEnvironment.
    unfold authorizerEnvironment. rewrite lookup_union_r by exact Hnone.
    reflexivity. }
  Local Opaque authorizerEnvironment.
  each_stack_props props; run_stack.
  all: rewrite ?Henv; split; reflexivity.
Qed.

(** X19.  The stack creates the Cognito user pool exactly when neither an
    existing OIDC provider is to be used nor CN regions are targeted, and
    the OIDC parameters exactly otherwise: always one of the two, never
    both. *)
Theorem cognito_or_oidc_parameters
    (props : option CloudFrontControlPlaneStackProps) (book : ParamBook) :
  let steps := snd (fst (CloudFrontControlPlaneStack props book)) in
  let own_pool :=
    negb (is_true (optional props sp_useExistingOIDCProvider))
    && negb (is_true (optional props sp_targetToCNRegions)) in
  length (List.filter creates_cognito steps) = (if own_pool then 1 else 0)%nat
  /\ length (List.filter creates_oidc_parameters steps)
     = (if own_pool then 0 else 1)%nat.
Proof.
  intros steps own_pool. subst steps own_pool.
  each_stack_props props; run_stack; split; reflexivity.
Qed.

End ControlPlaneProperties.

(** ** The further properties at work *)

Section FurtherWitnesses.

Import Scenario.

Lemma response_status_codes_witness :
  outcome_of (createAttributionAnalysisVisual request_unknown_model 0)
  = Responded (mkResponse 400 (ApiFail "Invalid attribution analysis model type"))
  /\ ((400 = 201 /\ exists r : string,
         ApiFail "Invalid attribution analysis model type" = ApiSuccess r)
      \/ ((400 = 400 \/ 400 = 404 \/ 400 = 500)
          /\ exists m, @ApiFail string "Invalid attribution analysis model type"
                       = ApiFail m)).
Proof.
  assert (Hout : outcome_of (createAttributionAnalysisVisual request_unknown_model 0)
                 = Responded
                     (mkResponse 400 (ApiFail "Invalid attribution analysis model type")))
    by reflexivity.
  split; [exact Hout|].
  exact (response_status_codes request_unknown_model 0 _ Hout).
Defined.

Lemma created_only_after_visualization_witness :
  outcome_of (createAttributionAnalysisVisual request 0)
  = Responded (mkResponse 201 (ApiSuccess "https://quicksight/embed"))
  /\ exists pre ev,
       calls_of (createAttributionAnalysisVisual request 0) = pre ++ [ev]
       /\ is_provider_call ev = true
       /\ length (List.filter is_builder_call pre) = 1%nat.
Proof.
  assert (Hout : outcome_of (createAttributionAnalysisVisual request 0)
                 = Responded (mkResponse 201 (ApiSuccess "https://quicksight/embed")))
    by reflexivity.
  split; [exact Hout|].
  destruct (created_only_after_visualization request 0 _ Hout eq_refl)
    as (pre & sheetId & viewName & q & pl & datasets & visuals & r
        & Hcalls & _ & _ & Hone & _).
  exists pre, (Call_createDashboardVisuals sheetId viewName q pl datasets visuals).
  split; [exact Hcalls|]. split; [reflexivity | exact Hone].
Defined.

Lemma dataset_witness :
  let q := encodedQuery request pipeline in
  let sheetId := JStr (uuid_of 0) in
  let datasets :=
    [ mkDataSetProps "_tmp_view" tt "DIRECT_QUERY" "select 'single-point'"
        [ "Trigger Count"; "Touch Point Name"; "Number of Total Conversion";
          "Number of Triggers with Conversion"; "Contribution(number/sum...value)";
          "Contribution Rate" ] ] in
  let visuals := [ mkVisualProps sheetId "CHART" (uuid_of 1) "_tmp_view" [] tt tt tt ] in
  In (Call_createDashboardVisuals sheetId "_tmp_view" q pipeline datasets visuals)
     (calls_of (createAttributionAnalysisVisual request 0))
  /\ exists builder sql,
       In builder (calls_of (createAttributionAnalysisVisual request 0))
       /\ builder_params builder = Some (sqlParameters q)
       /\ builder_sql builder = Some sql.
Proof.
  intros q sheetId datasets visuals.
  assert (Hin : In (Call_createDashboardVisuals sheetId "_tmp_view" q pipeline
                      datasets visuals)
                   (calls_of (createAttributionAnalysisVisual request 0)))
    by (apply (List.nth_error_In _ 11); reflexivity).
  split; [exact Hin|].
  destruct (dataset_carries_the_builder_sql request 0 sheetId "_tmp_view" q pipeline
              datasets visuals Hin) as (builder & sql & Hb & Hp & Hs & _ & _).
  exists builder, sql. split; [exact Hb|]. split; [exact Hp | exact Hs].
Defined.

Lemma visual_witness :
  let q := encodedQuery request pipeline in
  let sheetId := JStr (uuid_of 0) in
  let datasets :=
    [ mkDataSetProps "_tmp_view" tt "DIRECT_QUERY" "select 'single-point'"
        [ "Trigger Count"; "Touch Point Name"; "Number of Total Conversion";
          "Number of Triggers with Conversion"; "Contribution(number/sum...value)";
          "Contribution Rate" ] ] in
  let visuals := [ mkVisualProps sheetId "CHART" (uuid_of 1) "_tmp_view" [] tt tt tt ] in
  In (Call_createDashboardVisuals sheetId "_tmp_view" q pipeline datasets visuals)
     (calls_of (createAttributionAnalysisVisual request 0))
  /\ exists props locale,
       In (Call_getVisualRelatedDefs props locale)
          (calls_of (createAttributionAnalysisVisual request 0))
       /\ vr_sheetId props = sheetId
       /\ vr_viewName props = "_tmp_view".
Proof.
  intros q sheetId datasets visuals.
  assert (Hin : In (Call_createDashboardVisuals sheetId "_tmp_view" q pipeline
                      datasets visuals)
                   (calls_of (createAttributionAnalysisVisual request 0)))
    by (apply (List.nth_error_In _ 11); reflexivity).
  split; [exact Hin|].
  destruct (visual_is_wired_to_its_definitions request 0 sheetId "_tmp_view" q pipeline
              datasets visuals Hin)
    as (visualId & titleProps & chartType & props & locale & related
        & _ & Hrel & _ & _ & Hsheet & Hview & _).
  exists props, locale. split; [exact Hrel|]. split; [exact Hsheet | exact Hview].
Defined.

Lemma undefined_result_witness :
  let run := @createAttributionAnalysisVisual Outage.collaborators
               Outage.request_undefined 0 in
  let q := @encodedQuery Outage.collaborators Outage.request_undefined "+00:00" in
  let sheetId := JStr (@uuid_of Outage.collaborators 0) in
  let datasets :=
    [ mkDataSetProps "view" tt "DIRECT_QUERY" "select 'single-point'"
        [ "Trigger Count"; "Touch Point Name"; "Number of Total Conversion";
          "Number of Triggers with Conversion"; "Contribution(number/sum...value)";
          "Contribution Rate" ] ] in
  let visuals :=
    [ mkVisualProps sheetId "CHART" (@uuid_of Outage.collaborators 1) "view" []
        tt tt tt ] in
  In (@Call_createDashboardVisuals Outage.collaborators
        sheetId "view" q "+00:00" datasets visuals)
     (calls_of run)
  /\ @createDashboardVisuals Outage.collaborators
       sheetId "view" q "+00:00" datasets visuals = Fulfilled None
  /\ outcome_of run
     = Responded (mkResponse 500
                    (ApiFail "Failed to create resources, please try again later.")).
Proof.
  intros run q sheetId datasets visuals.
  assert (Hin : In (@Call_createDashboardVisuals Outage.collaborators
                      sheetId "view" q "+00:00" datasets visuals)
                   (calls_of run))
    by (apply (List.nth_error_In _ 11); reflexivity).
  assert (Hres : @createDashboardVisuals Outage.collaborators
                   sheetId "view" q "+00:00" datasets visuals = Fulfilled None)
    by reflexivity.
  split; [exact Hin|]. split; [exact Hres|].
  exact (@undefined_result_is_a_server_error Outage.collaborators
           Outage.request_undefined 0 sheetId "view" q "+00:00" datasets visuals
           Hin Hres).
Defined.

Lemma client_errors_witness :
  outcome_of (createAttributionAnalysisVisual request_unknown_project 0)
  = Responded (mkResponse 404 (ApiFail "Pipeline not found"))
  /\ (404 = 400 \/ 404 = 404)
  /\ List.filter is_builder_call
       (calls_of (createAttributionAnalysisVisual request_unknown_project 0)) = []
  /\ List.filter is_visualization_call
       (calls_of (createAttributionAnalysisVisual request_unknown_project 0)) = [].
Proof.
  assert (Hout : outcome_of (createAttributionAnalysisVisual request_unknown_project 0)
                 = Responded (mkResponse 404 (ApiFail "Pipeline not found")))
    by reflexivity.
  assert (Hstatus : 404 = 400 \/ 404 = 404) by (right; reflexivity).
  split; [exact Hout|]. split; [exact Hstatus|].
  exact (client_errors_create_nothing request_unknown_project 0 _ Hout Hstatus).
Defined.

(** A rejection of the provider reaches [next], after all twelve calls. *)
Example provider_rejection_runs :
  outcome_of (@createAttributionAnalysisVisual Outage.collaborators
                Outage.request_provider_down 0)
  = Next "provider unavailable"
  /\ length (calls_of (@createAttributionAnalysisVisual Outage.collaborators
                         Outage.request_provider_down 0)) = 12%nat.
Proof. split; reflexivity. Qed.

(** A rejection of the pipeline store reaches [next] after two calls. *)
Example store_rejection_runs :
  @createAttributionAnalysisVisual Outage.collaborators Outage.request_store_down 5
  = (Next "pipeline store unavailable",
     [ @Call_checkAttributionAnalysisParameter Outage.collaborators
         Outage.request_store_down;
       @Call_getPipelineByProjectId Outage.collaborators (JStr "down") ],
     5%nat).
Proof. reflexivity. Qed.

End FurtherWitnesses.

Section CoverageWitnesses.

Lemma refresh_statement_witness :
  RefreshBasicView.dot_free "app1" = true
  /\ RefreshBasicView.sqlStatements RefreshBasicView.sample_event
     = RefreshBasicView.sqlStatements RefreshBasicView.sample_event_again
  /\ RefreshBasicView.sqlStatements RefreshBasicView.sample_event
     = ["REFRESH MATERIALIZED VIEW app1.clickstream_event_view;"]
  /\ length (RefreshBasicView.sqlStatements RefreshBasicView.sample_event) = 1%nat.
Proof.
  assert (Hdot : RefreshBasicView.dot_free "app1" = true) by reflexivity.
  assert (Hsame : RefreshBasicView.sqlStatements RefreshBasicView.sample_event
                  = RefreshBasicView.sqlStatements RefreshBasicView.sample_event_again)
    by reflexivity.
  split; [exact Hdot|]. split; [exact Hsame|]. split; [reflexivity|].
  exact (proj1 (refresh_statement_identifies_the_view
                  RefreshBasicView.sample_event RefreshBasicView.sample_event_again
                  Hdot Hdot Hsame)).
Defined.

(** With a dot in the application identifier two targets can share one
    statement. *)
Example dotted_identifiers_collide :
  RefreshBasicView.sqlStatements
    (RefreshBasicView.mkRefreshBasicViewEvent "c"
       (RefreshBasicView.mkTimezoneWithAppId "a.b" "UTC"))
  = RefreshBasicView.sqlStatements
      (RefreshBasicView.mkRefreshBasicViewEvent "b.c"
         (RefreshBasicView.mkTimezoneWithAppId "a" "UTC")).
Proof. reflexivity. Qed.

(** An unknown property named like a declared one stays in the map. *)
Example unknown_item_id_stays_unknown :
  let i :=
    SensorsItem.performAll
      [ SensorsItem.CallSetItemId (Some "sku-1");
        SensorsItem.CallSetUnknownProperty (Some "item_id") "other";
        SensorsItem.CallSetUnknownProperty (Some "color") "red";
        SensorsItem.CallSetUnknownProperty (Some "color") "blue" ]
      (SensorsItem.mkItem (Object := string) (Double := Z) ∅ None None None 0 None) in
  SensorsItem.itemId i = Some "sku-1"
  /\ SensorsItem.getUnknownProperties i !! Some "item_id" = Some "other"
  /\ SensorsItem.getUnknownProperties i !! Some "color" = Some "blue".
Proof. repeat split. Qed.

Import ControlPlane.

Lemma rest_api_witness :
  exists c steps,
    ClickStreamApiConstruct sample_alb_props = (Done c, steps)
    /\ is_Some (functionVpcProps c)
    /\ lambdaRestApi c = None.
Proof.
  destruct (ClickStreamApiConstruct sample_alb_props) as [[c|message] steps] eqn:E;
    [|discriminate E].
  exists c, steps. split; [reflexivity|].
  destruct (rest_api_only_behind_cloudfront sample_alb_props c steps E)
    as (Hapi & Hvpc & _ & _).
  split; [apply Hvpc; reflexivity|].
  destruct (lambdaRestApi c) as [api|] eqn:Ha; [|reflexivity].
  assert (Hs : is_Some (Some api)) by (eexists; reflexivity).
  apply Hapi in Hs. discriminate Hs.
Defined.

Lemma unused_properties_witness :
  fronting sample_alb_props = fronting sample_alb_props_more
  /\ ClickStreamApiConstruct sample_alb_props
     = ClickStreamApiConstruct sample_alb_props_more.
Proof.
  split; [reflexivity|].
  apply (unused_properties_do_not_matter sample_alb_props sample_alb_props_more);
    try reflexivity.
  intros E. discriminate E.
Defined.

Lemma api_environment_witness :
  POWERTOOLS_ENVS !! "S3_MAIN_REGION" = None
  /\ apiEnvironment sample_alb_props !! "S3_MAIN_REGION" = Some "us-east-1"
  /\ apiEnvironment sample_alb_props !! "LOG_LEVEL" = Some "WARN".
Proof.
  assert (Hnone : POWERTOOLS_ENVS !! "S3_MAIN_REGION" = None) by reflexivity.
  assert (Hlog : POWERTOOLS_ENVS !! "LOG_LEVEL" = Some "WARN") by reflexivity.
  split; [exact Hnone|].
  destruct (api_function_environment sample_alb_props) as [Hwins Hregion].
  split; [exact (Hregion Hnone) | exact (Hwins _ _ Hlog)].
Defined.

Lemma cn_regions_witness :
  optional sample_cn_props sp_targetToCNRegions = Some true
  /\ optional sample_cn_props_more sp_targetToCNRegions = Some true
  /\ CloudFrontControlPlaneStack sample_cn_props emptyBook
     = CloudFrontControlPlaneStack sample_cn_props_more emptyBook.
Proof.
  split; [reflexivity|]. split; [reflexivity|].
  exact (cn_regions_ignore_the_other_flags sample_cn_props sample_cn_props_more
           emptyBook eq_refl eq_refl).
Defined.

Lemma shared_issuer_witness :
  POWERTOOLS_ENVS !! "ISSUER" = None
  /\ omap issuer_of_portal
       (snd (fst (CloudFrontControlPlaneStack None emptyBook)))
     = ["https://cognito-idp/pool"].
Proof.
  assert (Hnone : POWERTOOLS_ENVS !! "ISSUER" = None) by reflexivity.
  split; [exact Hnone|].
  exact (proj2 (authorizer_and_portal_share_the_issuer None emptyBook Hnone)).
Defined.

End CoverageWitnesses.
